(** * livox_launch.py: tide-driven sampling interval and launcher

    A shallow embedding of [livox_launch.py] and the properties of its
    tide analysis, interval selection, half-hour guard and error handling.

    Layout:
    - [Py]: the fragment of Python's dynamic values and exceptions that the
      script touches (subscription, [dict.get], iteration, [isinstance]).
    - [datetime]: naive [datetime] and [timedelta] values with the
      arithmetic and comparisons of the standard library.
    - [Launch]: the functions of the script, in a state-and-exception monad
      over an explicit environment (clock, file system, HTTP, subprocess).
    - the theorems. *)

From Stdlib Require Import ZArith List String Bool Lia Permutation.
Import ListNotations.
Set Warnings "-register-all".
Local Open Scope string_scope.
Local Open Scope Z_scope.

(** ** Python values and exceptions *)

Module Py.

(** The exception classes that can occur in a run of the script. *)
Inductive exn : Type :=
| KeyError
| TypeError
| AttributeError
| ValueError
| UnboundLocalError
| OverflowError
| OSError
| FileNotFoundError
| PermissionError
| YAMLError
| RequestException
| ConnectionError
| HTTPError
| JSONDecodeError
| CalledProcessError.

Definition exn_eqb (a b : exn) : bool :=
  match a, b with
  | KeyError, KeyError | TypeError, TypeError
  | AttributeError, AttributeError | ValueError, ValueError
  | UnboundLocalError, UnboundLocalError | OverflowError, OverflowError
  | OSError, OSError | FileNotFoundError, FileNotFoundError
  | PermissionError, PermissionError | YAMLError, YAMLError
  | RequestException, RequestException | ConnectionError, ConnectionError
  | HTTPError, HTTPError | JSONDecodeError, JSONDecodeError
  | CalledProcessError, CalledProcessError => true
  | _, _ => false
  end.

(** [isinstance e c]: an exception of class [e] is caught by [except c].
    [requests.exceptions.JSONDecodeError] derives from both
    [RequestException] and [ValueError]. *)
Definition isinstance (e c : exn) : bool :=
  exn_eqb e c ||
  match e, c with
  | FileNotFoundError, OSError | PermissionError, OSError => true
  | ConnectionError, RequestException | HTTPError, RequestException
  | JSONDecodeError, RequestException | JSONDecodeError, ValueError => true
  | _, _ => false
  end.

(** The outcome of evaluating an expression: a value or a raised exception. *)
Inductive result (A : Type) : Type :=
| Ok (a : A)
| Raise (e : exn).
Arguments Ok {A} a.
Arguments Raise {A} e.

Definition rbind {A B} (r : result A) (k : A -> result B) : result B :=
  match r with
  | Ok a => k a
  | Raise e => Raise e
  end.

(** Values as [yaml.safe_load] and [response.json()] build them.  A float
    is kept as its IEEE-754 binary64 bit pattern; a dict as its items in
    insertion order, keyed by strings. *)
Inductive pyval : Type :=
| PyNone
| PyBool (b : bool)
| PyInt (n : Z)
| PyFloat (bits : Z)
| PyStr (s : string)
| PyList (l : list pyval)
| PyDict (d : list (string * pyval)).

Definition is_none (v : pyval) : bool :=
  match v with PyNone => true | _ => false end.

Fixpoint lookup (key : string) (d : list (string * pyval)) : option pyval :=
  match d with
  | [] => None
  | (k, v) :: d' => if String.eqb k key then Some v else lookup key d'
  end.

(** [v[key]] for a string key. *)
Definition getitem (v : pyval) (key : string) : result pyval :=
  match v with
  | PyDict d =>
      match lookup key d with
      | Some x => Ok x
      | None => Raise KeyError
      end
  | _ => Raise TypeError
  end.

(** [v.get(key, default)]: only a dict has the method. *)
Definition get (v : pyval) (key : string) (default : pyval) : result pyval :=
  match v with
  | PyDict d =>
      match lookup key d with
      | Some x => Ok x
      | None => Ok default
      end
  | _ => Raise AttributeError
  end.

Fixpoint chars (s : string) : list pyval :=
  match s with
  | EmptyString => []
  | String c s' => PyStr (String c EmptyString) :: chars s'
  end.

(** The items a [for] loop over [v] visits. *)
Definition iter (v : pyval) : result (list pyval) :=
  match v with
  | PyList l => Ok l
  | PyDict d => Ok (map (fun kv => PyStr (fst kv)) d)
  | PyStr s => Ok (chars s)
  | _ => Raise TypeError
  end.

(** [v == s] for a string literal [s]. *)
Definition eq_str (v : pyval) (s : string) : bool :=
  match v with
  | PyStr s' => String.eqb s' s
  | _ => false
  end.

(** Whether the binary64 float with bit pattern [bits] equals the integer
    [n]: a finite float is [mant * 2^ex], compared exactly. *)
Definition float_eq_int (bits n : Z) : bool :=
  let negative := Z.testbit bits 63 in
  let e := Z.land (Z.shiftr bits 52) 2047 in
  let m := Z.land bits (2 ^ 52 - 1) in
  if e =? 2047 then false
  else
    let mant := if e =? 0 then m else m + 2 ^ 52 in
    let ex := if e =? 0 then -1074 else e - 1075 in
    (Bool.eqb negative (n <? 0) || (mant =? 0)) &&
    (if 0 <=? ex then Z.abs n =? mant * 2 ^ ex
     else Z.abs n * 2 ^ (- ex) =? mant).

(** [v != n] for an integer literal [n]; [True] and [False] compare as 1
    and 0, a float by value, anything else is unequal to an integer. *)
Definition ne_int (v : pyval) (n : Z) : bool :=
  match v with
  | PyInt m => negb (m =? n)
  | PyBool b => negb ((if b then 1 else 0) =? n)
  | PyFloat bits => negb (float_eq_int bits n)
  | _ => true
  end.

End Py.
Import Py.

Declare Scope result_scope.
Delimit Scope result_scope with result.
Notation "x <- r ;; k" := (rbind r (fun x => k))
  (at level 61, r at next level, right associativity) : result_scope.

(** ** Naive datetimes and timedeltas

    A [datetime] is kept as the proleptic Gregorian ordinal of its date
    ([date.toordinal()], 1 for 0001-01-01) and its time fields; this is how
    the standard library itself adds, subtracts and orders datetimes.  A
    [timedelta] is kept normalised as [days], [seconds], [microseconds]. *)

Module datetime.

Record timedelta : Type := mk_timedelta
  { days : Z; seconds : Z; microseconds : Z }.

Record datetime : Type := mk_datetime
  { ordinal : Z; hour : Z; minute : Z; second : Z; microsecond : Z }.

(** [date.max.toordinal()], the ordinal of 9999-12-31. *)
Definition MAXORDINAL : Z := 3652059.

(** [timedelta(days, seconds, microseconds)]: carries are propagated with
    floor division and the day count is limited to nine digits. *)
Definition timedelta_new (d s us : Z) : result timedelta :=
  let s1 := s + us / 1000000 in
  let d1 := d + s1 / 86400 in
  if Z.abs d1 <=? 999999999
  then Ok (mk_timedelta d1 (s1 mod 86400) (us mod 1000000))
  else Raise OverflowError.

(** [timedelta(days=d)] and [timedelta(hours=h)]. *)
Definition timedelta_days (d : Z) : result timedelta := timedelta_new d 0 0.
Definition timedelta_hours (h : Z) : result timedelta :=
  timedelta_new 0 (h * 3600) 0.

Definition timedelta_add (a b : timedelta) : result timedelta :=
  timedelta_new (days a + days b) (seconds a + seconds b)
                (microseconds a + microseconds b).

Definition timedelta_neg (a : timedelta) : result timedelta :=
  timedelta_new (- days a) (- seconds a) (- microseconds a).

(** Tuple comparison of the normalised fields. *)
Definition timedelta_cmp (a b : timedelta) : comparison :=
  match days a ?= days b with
  | Eq =>
      match seconds a ?= seconds b with
      | Eq => microseconds a ?= microseconds b
      | c => c
      end
  | c => c
  end.

Definition timedelta_le (a b : timedelta) : bool :=
  match timedelta_cmp a b with Gt => false | _ => true end.

(** [dt + td]. *)
Definition add (dt : datetime) (td : timedelta) : result datetime :=
  (delta0 <- timedelta_new (ordinal dt)
               (second dt + minute dt * 60 + hour dt * 3600)
               (microsecond dt) ;;
   delta <- timedelta_add delta0 td ;;
   let h := seconds delta / 3600 in
   let rem := seconds delta mod 3600 in
   if (0 <? days delta) && (days delta <=? MAXORDINAL)
   then Ok (mk_datetime (days delta) h (rem / 60) (rem mod 60)
                        (microseconds delta))
   else Raise OverflowError)%result.

(** [dt - td] is [dt + (-td)]. *)
Definition sub_timedelta (dt : datetime) (td : timedelta) : result datetime :=
  (neg <- timedelta_neg td ;; add dt neg)%result.

(** [a - b] for two datetimes. *)
Definition sub (a b : datetime) : result timedelta :=
  timedelta_new (ordinal a - ordinal b)
    ((second a + minute a * 60 + hour a * 3600)
     - (second b + minute b * 60 + hour b * 3600))
    (microsecond a - microsecond b).

(** Ordering: tuple comparison, the date first. *)
Definition cmp (a b : datetime) : comparison :=
  match ordinal a ?= ordinal b with
  | Eq =>
      match hour a ?= hour b with
      | Eq =>
          match minute a ?= minute b with
          | Eq =>
              match second a ?= second b with
              | Eq => microsecond a ?= microsecond b
              | c => c
              end
          | c => c
          end
      | c => c
      end
  | c => c
  end.

Definition le (a b : datetime) : bool :=
  match cmp a b with Gt => false | _ => true end.
Definition lt (a b : datetime) : bool :=
  match cmp a b with Lt => true | _ => false end.
Definition gt (a b : datetime) : bool :=
  match cmp a b with Gt => true | _ => false end.

(** [dt.replace(minute=mi, second=s, microsecond=us)]: the new fields are
    range-checked. *)
Definition replace (dt : datetime) (mi s us : Z) : result datetime :=
  if (0 <=? mi) && (mi <? 60) && (0 <=? s) && (s <? 60)
     && (0 <=? us) && (us <? 1000000)
  then Ok (mk_datetime (ordinal dt) (hour dt) mi s us)
  else Raise ValueError.

(** Every datetime object satisfies these bounds. *)
Definition valid (dt : datetime) : Prop :=
  1 <= ordinal dt <= MAXORDINAL /\ 0 <= hour dt < 24 /\
  0 <= minute dt < 60 /\ 0 <= second dt < 60 /\
  0 <= microsecond dt < 1000000.

(** Position on the time line, in microseconds. *)
Definition to_us (dt : datetime) : Z :=
  (((ordinal dt * 24 + hour dt) * 60 + minute dt) * 60 + second dt)
  * 1000000 + microsecond dt.

Definition timedelta_us (td : timedelta) : Z :=
  (days td * 86400 + seconds td) * 1000000 + microseconds td.

Definition normalised (td : timedelta) : Prop :=
  0 <= seconds td < 86400 /\ 0 <= microseconds td < 1000000.

End datetime.
Import datetime.

(** ** The environment of a run and the monad of the script *)

(** An f-string before rendering: its literal pieces and the values it
    interpolates. *)
Inductive frag : Type :=
| Lit (s : string)
| Val (v : pyval)
| Time (t : option datetime)
| Strftime (t : datetime) (fmt : string)
| Exc (e : exn).

Definition text : Type := list frag.

(** What a run does to the outside world, in order. *)
Inductive event : Type :=
| Print (line : text)
| HttpGet (url : text)
| Spawn (argv : list text).

(** A [requests.Response]: its status and what [.json()] gives. *)
Record response : Type := mk_response
  { status_code : Z; json : result pyval }.

(** Everything a run reads from outside. *)
Record env : Type := mk_env
  { clock : nat -> datetime;
      (* the value of the n-th call of datetime.now() *)
    open_safe_load : string -> result pyval;
      (* open(path) followed by yaml.safe_load *)
    requests_get : text -> result response;
    subprocess_run : list text -> result Z
      (* the child's return code, or the error of starting it *) }.

Record world : Type := mk_world
  { ticks : nat; trace : list event }.

Definition M (A : Type) : Type := world -> result A * world.

Definition ret {A} (a : A) : M A := fun w => (Ok a, w).

Definition bind {A B} (m : M A) (k : A -> M B) : M B :=
  fun w =>
    match m w with
    | (Ok a, w') => k a w'
    | (Raise e, w') => (Raise e, w')
    end.

Definition raise {A} (e : exn) : M A := fun w => (Raise e, w).

Definition lift {A} (r : result A) : M A := fun w => (r, w).

(** [try: body / except c1: h1 / except (c2, c3): h2 ...]: the first clause
    that names a class the exception is an instance of handles it. *)
Fixpoint handler_for {A} (e : exn)
    (clauses : list (list exn * (exn -> M A))) : option (M A) :=
  match clauses with
  | [] => None
  | (classes, h) :: rest =>
      if existsb (isinstance e) classes then Some (h e)
      else handler_for e rest
  end.

Definition try_except {A} (body : M A)
    (clauses : list (list exn * (exn -> M A)))
  : M A :=
  fun w =>
    match body w with
    | (Ok a, w') => (Ok a, w')
    | (Raise e, w') =>
        match handler_for e clauses with
        | Some h => h w'
        | None => (Raise e, w')
        end
    end.

Definition emit (ev : event) : M unit :=
  fun w => (Ok tt, mk_world (ticks w) (trace w ++ [ev])).

Definition print (line : text) : M unit := emit (Print line).

(** Reading a local variable that no executed assignment has bound. *)
Definition read_local {A} (v : option A) : M A :=
  match v with
  | Some a => ret a
  | None => raise UnboundLocalError
  end.

(** A [for] loop whose body updates the loop-carried variables [s]. *)
Fixpoint for_each {A S} (body : S -> A -> result S) (items : list A) (s : S)
  : result S :=
  match items with
  | [] => Ok s
  | x :: rest => (s' <- body s x ;; for_each body rest s')%result
  end.

(** The exit status of the interpreter for the outcome of [main()]. *)
Definition exit_status (r : result unit) : Z :=
  match r with
  | Ok _ => 0
  | Raise _ => 1
  end.

Declare Scope M_scope.
Delimit Scope M_scope with M.
Notation "x <- m ;; k" := (bind m (fun x => k))
  (at level 61, m at next level, right associativity) : M_scope.
Notation "' pat <- m ;; k" := (bind m (fun x => match x with pat => k end))
  (at level 61, pat pattern, m at next level, right associativity) : M_scope.
Notation "m ;; k" := (bind m (fun _ => k))
  (at level 61, right associativity) : M_scope.

(** ** The functions of livox_launch.py *)

Module Launch.

Definition NEAREST_COOPS : string := "9410230".
Definition DEFAULT_SAMP_TIME : Z := 300.

Section Script.

(** [datetime.strptime(s, fmt)], which either builds a datetime or raises. *)
Variable strptime : string -> string -> result datetime.

Variable E : env.

Local Open Scope M_scope.

Definition datetime_now : M datetime :=
  fun w => (Ok (clock E (ticks w)), mk_world (S (ticks w)) (trace w)).

(** [parse_datetime]: [strptime] wants a [str]. *)
Definition parse_datetime (datetime_str : pyval) : result datetime :=
  match datetime_str with
  | PyStr s => strptime s "%Y-%m-%d %H:%M"
  | _ => Raise TypeError
  end.

(** The body of the loop of [find_closest_high_tides]; the loop-carried
    variables are [closest_past_high_tide] and [closest_future_high_tide]. *)
Definition scan_prediction (now : datetime)
    (closest : option datetime * option datetime) (prediction : pyval)
  : result (option datetime * option datetime) :=
  let '(closest_past_high_tide, closest_future_high_tide) := closest in
  (t <- getitem prediction "t" ;;
   pred_datetime <- parse_datetime t ;;
   type <- getitem prediction "type" ;;
   if eq_str type "H" then
     if le pred_datetime now then
       if match closest_past_high_tide with
          | None => true
          | Some past => gt pred_datetime past
          end
       then Ok (Some pred_datetime, closest_future_high_tide)
       else Ok closest
     else
       if match closest_future_high_tide with
          | None => true
          | Some future => lt pred_datetime future
          end
       then Ok (closest_past_high_tide, Some pred_datetime)
       else Ok closest
   else Ok closest)%result.

Definition find_closest_high_tides (predictions : pyval)
  : M (option datetime * option datetime) :=
  now <- datetime_now ;;
  items <- lift (iter predictions) ;;
  lift (for_each (scan_prediction now) items (None, None)).

Definition round_to_nearest_hour (dt : datetime) : result datetime :=
  (dt' <- (if 30 <=? minute dt
           then (hour1 <- timedelta_hours 1 ;; add dt hour1)
           else Ok dt) ;;
   replace dt' 0 0 0)%result.

(** The request of [get_tide_predictions], an f-string over its arguments. *)
Definition datagetter_url (coops now_str : text) : text :=
  ([Lit "https://api.tidesandcurrents.noaa.gov/api/prod/datagetter?";
    Lit "&product=predictions&datum=stnd&interval=hilo&format=json";
    Lit "&units=metric&time_zone=lst_ldt&station="] ++ coops
   ++ [Lit "&begin_date="] ++ now_str ++ [Lit "&range=48"])%list.

Definition fetch_failed (e : exn) : M pyval :=
  print [Lit "Error fetching tide data: "; Exc e] ;;
  print [Lit "Falling back to default sampling time"] ;;
  ret PyNone.

Definition get_tide_predictions (coops now_str : text) : M pyval :=
  try_except
    (let url := datagetter_url coops now_str in
     emit (HttpGet url) ;;
     response <- lift (requests_get E url) ;;
     (* response.raise_for_status() *)
     (if (400 <=? status_code response) && (status_code response <? 600)
      then raise HTTPError else ret tt) ;;
     body <- lift (json response) ;;
     lift (get body "predictions" (PyList [])))
    [([RequestException; ValueError], fetch_failed)].

Definition load_config (file_path : string) : M pyval :=
  try_except
    (config <- lift (open_safe_load E file_path) ;;
     ret config)
    [([FileNotFoundError], fun _ =>
        print [Lit "File "; Lit file_path; Lit " not found."] ;;
        ret PyNone);
     ([YAMLError], fun e =>
        print [Lit "Error parsing YAML file: "; Exc e] ;;
        ret PyNone)].

(** [main], lines 83 to 95: the configuration and the tide fetch.  The
    local [coops] is bound only where the source assigns it. *)
Definition main_setup : M (pyval * pyval) :=
  config <- load_config "config.yaml" ;;
  now0 <- datetime_now ;;
  one_day <- lift (timedelta_days 1) ;;
  yesterday <- lift (sub_timedelta now0 one_day) ;;
  let now_str := [Strftime yesterday "%Y%m%d"] in
  '(default_samp_time, coops) <-
    (if negb (is_none config) then
       print [Lit "Config loaded"] ;;
       fqdn_ip <- lift (getitem config "fqdn_ip") ;;
       sampling <- lift (get config "sampling" (PyDict [])) ;;
       default_samp_time <- lift (get sampling "time" (PyInt DEFAULT_SAMP_TIME)) ;;
       ret (default_samp_time, @None string)
     else
       print [Lit "Failed to load config; using defaults"] ;;
       ret (PyInt DEFAULT_SAMP_TIME, Some NEAREST_COOPS)) ;;
  coops <- read_local coops ;;
  predictions <- get_tide_predictions [Lit coops] now_str ;;
  ret (default_samp_time, predictions).

(** [main], lines 107 to 117: the single closest high tide. *)
Definition closest_of (now : datetime)
    (closest_past_high_tide closest_future_high_tide : option datetime)
  : result (option datetime) :=
  match closest_past_high_tide, closest_future_high_tide with
  | Some past, Some future =>
      (since <- sub now past ;;
       until <- sub future now ;;
       if timedelta_le since until then Ok (Some past) else Ok (Some future))%result
  | Some past, None => Ok (Some past)
  | None, Some future => Ok (Some future)
  | None, None => Ok None
  end.

(** [main], lines 119 to 126: the interval for the closest high tide.  The
    chained comparison evaluates its right operand only when the left
    comparison holds. *)
Definition samp_time_for (default_samp_time : pyval) (now : datetime)
    (closest_high_tide : option datetime) : result pyval :=
  match closest_high_tide with
  | Some tide =>
      (rounded_high_tide <- round_to_nearest_hour tide ;;
       two <- timedelta_hours 2 ;;
       lo <- sub_timedelta rounded_high_tide two ;;
       if le lo now then
         three <- timedelta_hours 3 ;;
         hi <- add rounded_high_tide three ;;
         if le now hi then Ok (PyInt (25 * 60)) else Ok default_samp_time
       else Ok default_samp_time)%result
  | None => Ok default_samp_time
  end.

(** [main], lines 97 to 126. *)
Definition main_select (default_samp_time predictions : pyval) : M pyval :=
  if is_none predictions then
    ret default_samp_time
  else
    '(closest_past_high_tide, closest_future_high_tide) <-
      find_closest_high_tides predictions ;;
    print [Lit "Closest past high tide: "; Time closest_past_high_tide] ;;
    print [Lit "Closest future high tide: "; Time closest_future_high_tide] ;;
    now <- datetime_now ;;
    closest_high_tide <-
      lift (closest_of now closest_past_high_tide closest_future_high_tide) ;;
    lift (samp_time_for default_samp_time now closest_high_tide).

Definition livox_logger : text :=
  [Lit "/home/cpg/Dev/livox_logger/bin/livox_logger"].

(** [main], lines 128 to 145: the half-hour guard and the launch. *)
Definition main_launch (samp_time : pyval) : M unit :=
  print [Lit "Sampling time set to: "; Val samp_time; Lit " seconds"] ;;
  now3 <- datetime_now ;;
  let current_minute := minute now3 in
  if (current_minute =? 30) && ne_int samp_time (25 * 60) then
    print [Lit "Running on :30 but not in high tide situation, skipping launch"]
  else
    let config_file := [Lit "conf/config-"; Val samp_time; Lit ".yaml"] in
    try_except
      (let argv := [livox_logger; config_file] in
       emit (Spawn argv) ;;
       returncode <- lift (subprocess_run E argv) ;;
       (* check=True *)
       if returncode =? 0 then ret tt else raise CalledProcessError)
      [([CalledProcessError], fun e =>
          print [Lit "Error running livox_logger: "; Exc e]);
       ([FileNotFoundError], fun _ =>
          print [Lit "livox_logger program not found"])].

Definition main : M unit :=
  '(default_samp_time, predictions) <- main_setup ;;
  samp_time <- main_select default_samp_time predictions ;;
  main_launch samp_time.

End Script.

End Launch.
Import Launch.

(** ** Vocabulary of the specification *)

(** The order spelled out on the fields. *)
Definition before (a b : datetime) : Prop :=
  ordinal a < ordinal b \/ ordinal a = ordinal b /\
  (hour a < hour b \/ hour a = hour b /\
   (minute a < minute b \/ minute a = minute b /\
    (second a < second b \/ second a = second b /\
     microsecond a < microsecond b))).

Definition in_range (us : Z) : Prop :=
  86400000000 <= us < (MAXORDINAL + 1) * 86400000000.

(** The loop reads the timestamp [fst r] and the type tag [snd r] from a
    prediction record. *)
Definition reads (strptime : string -> string -> result datetime)
    (prediction : pyval) (r : datetime * pyval) : Prop :=
  exists t, getitem prediction "t" = Ok t /\
            parse_datetime strptime t = Ok (fst r) /\
            getitem prediction "type" = Ok (snd r).

(** The timestamps of the high-tide records, in list order. *)
Definition high_tides (recs : list (datetime * pyval)) : list datetime :=
  map fst (filter (fun r => eq_str (snd r) "H") recs).

(** [best] is the latest of the timestamps [hs] that are at or before
    [now], or absent when there is none. *)
Definition latest_at_or_before (now : datetime) (hs : list datetime)
    (best : option datetime) : Prop :=
  match best with
  | Some p => In p hs /\ le p now = true /\
              forall h, In h hs -> le h now = true -> le h p = true
  | None => forall h, In h hs -> le h now = false
  end.

(** [best] is the earliest of the timestamps [hs] that are after [now], or
    absent when there is none. *)
Definition earliest_after (now : datetime) (hs : list datetime)
    (best : option datetime) : Prop :=
  match best with
  | Some f => In f hs /\ lt now f = true /\
              forall h, In h hs -> lt now h = true -> le f h = true
  | None => forall h, In h hs -> lt now h = false
  end.

(** One iteration of the loop on a high-tide timestamp. *)
Definition track (now : datetime) (closest : option datetime * option datetime)
    (d : datetime) : option datetime * option datetime :=
  if le d now then
    match fst closest with
    | None => (Some d, snd closest)
    | Some past => if gt d past then (Some d, snd closest) else closest
    end
  else
    match snd closest with
    | None => (fst closest, Some d)
    | Some future => if lt d future then (fst closest, Some d) else closest
    end.

(** Distance of two datetimes on the time line, in microseconds. *)
Definition distance (a b : datetime) : Z := Z.abs (to_us a - to_us b).

Definition minutes (n : Z) : Z := n * 60 * 1000000.

Definition hours (n : Z) : Z := n * 3600 * 1000000.

(** [now] lies between two hours before and three hours after [rounded],
    both ends included. *)
Definition in_window (rounded now : datetime) : Prop :=
  to_us rounded - hours 2 <= to_us now <= to_us rounded + hours 3.

Definition in_windowb (rounded now : datetime) : bool :=
  (to_us rounded - hours 2 <=? to_us now) &&
  (to_us now <=? to_us rounded + hours 3).

(** Every datetime that [strptime] builds is a datetime. *)
Definition strptime_valid (strptime : string -> string -> result datetime)
  : Prop :=
  forall s fmt d, strptime s fmt = Ok d -> valid d.

Definition clock_valid (E : env) : Prop := forall n, valid (clock E n).

(** The accumulator of the analyzer holds datetimes on the right side of
    [now]. *)
Definition bracket (now : datetime)
    (closest : option datetime * option datetime) : Prop :=
  (forall p, fst closest = Some p -> valid p /\ le p now = true) /\
  (forall f, snd closest = Some f -> valid f /\ lt now f = true).

(** The command lines that the run has handed to [subprocess.run]. *)
Fixpoint invocations (evs : list event) : list (list text) :=
  match evs with
  | [] => []
  | Spawn argv :: rest => argv :: invocations rest
  | _ :: rest => invocations rest
  end.

(** A computation that starts no process. *)
Definition quiet {A} (m : M A) : Prop :=
  forall w r w', m w = (r, w') ->
                 invocations (trace w') = invocations (trace w).

(** The world after one more reading of the clock. *)
Definition tick (w : world) : world := mk_world (S (ticks w)) (trace w).

(** The analyzer cannot read the record [prediction]: the subscription
    with 't', the parsing of the timestamp or the subscription with 'type'
    raises [e]. *)
Definition unreadable (strptime : string -> string -> result datetime)
    (prediction : pyval) (e : exn) : Prop :=
  getitem prediction "t" = Raise e \/
  (exists t, getitem prediction "t" = Ok t /\
             parse_datetime strptime t = Raise e) \/
  (exists t d, getitem prediction "t" = Ok t /\
               parse_datetime strptime t = Ok d /\
               getitem prediction "type" = Raise e).

(** The same date and time one day earlier. *)
Definition day_before (d : datetime) : datetime :=
  mk_datetime (ordinal d - 1) (hour d) (minute d) (second d) (microsecond d).

(** The requests that the run has sent. *)
Fixpoint requests (evs : list event) : list text :=
  match evs with
  | [] => []
  | HttpGet url :: rest => url :: requests rest
  | _ :: rest => requests rest
  end.

(** A computation that sends no request. *)
Definition offline {A} (m : M A) : Prop :=
  forall w r w', m w = (r, w') -> requests (trace w') = requests (trace w).

(** The command line of the logger for the interval [samp_time]. *)
Definition logger_argv (samp_time : pyval) : list text :=
  [livox_logger; [Lit "conf/config-"; Val samp_time; Lit ".yaml"]].

(** The request for the tides of the default station from the day [day]
    on. *)
Definition default_request (day : datetime) : text :=
  datagetter_url [Lit NEAREST_COOPS] [Strftime day "%Y%m%d"].

(** [load_config] finds no usable configuration: the file is missing, is
    no YAML, or is an empty document. *)
Definition no_config (E : env) : Prop :=
  open_safe_load E "config.yaml" = Ok PyNone \/
  exists e, open_safe_load E "config.yaml" = Raise e /\
            (isinstance e FileNotFoundError = true \/
             isinstance e YAMLError = true).

(** ** Sample runs, for instantiating the theorems *)

Module Sample.

Definition strptime (s fmt : string) : result datetime :=
  if String.eqb fmt "%Y-%m-%d %H:%M" then
    if String.eqb s "2024-05-01 03:41" then Ok (mk_datetime 739007 3 41 0 0)
    else if String.eqb s "2024-05-01 09:58" then Ok (mk_datetime 739007 9 58 0 0)
    else if String.eqb s "2024-05-01 16:22" then Ok (mk_datetime 739007 16 22 0 0)
    else if String.eqb s "2024-05-01 22:05" then Ok (mk_datetime 739007 22 5 0 0)
    else Raise ValueError
  else Raise ValueError.

Definition prediction (t v type : string) : pyval :=
  PyDict [("t", PyStr t); ("v", PyStr v); ("type", PyStr type)].

Definition predictions : list pyval :=
  [prediction "2024-05-01 03:41" "1.612" "H";
   prediction "2024-05-01 09:58" "0.104" "L";
   prediction "2024-05-01 16:22" "1.377" "H";
   prediction "2024-05-01 22:05" "0.731" "L"].

Definition records : list (datetime * pyval) :=
  [(mk_datetime 739007 3 41 0 0, PyStr "H");
   (mk_datetime 739007 9 58 0 0, PyStr "L");
   (mk_datetime 739007 16 22 0 0, PyStr "H");
   (mk_datetime 739007 22 5 0 0, PyStr "L")].

Definition low_predictions : list pyval :=
  [prediction "2024-05-01 09:58" "0.104" "L";
   prediction "2024-05-01 22:05" "0.731" "L"].

Definition low_records : list (datetime * pyval) :=
  [(mk_datetime 739007 9 58 0 0, PyStr "L");
   (mk_datetime 739007 22 5 0 0, PyStr "L")].

(** A clock that reads [h]:[m]:00 on 2024-05-01 and advances a second with
    each reading. *)
Definition clock_at (h m : Z) (n : nat) : datetime :=
  mk_datetime 739007 h m (Z.of_nat (Nat.min n 59)) 0.

(** The answer of the tide service with JSON body [body]. *)
Definition answers (body : pyval) (url : text) : result response :=
  Ok (mk_response 200 (Ok body)).

(** A run at [h]:[m] without a config.yaml, in which the logger starts and
    exits with status 0. *)
Definition env_at (h m : Z) (service : text -> result response) : env :=
  mk_env (clock_at h m) (fun _ => Raise FileNotFoundError) service
    (fun _ => Ok 0).

Definition tides_fetched : pyval := PyList predictions.

Definition tides : pyval := PyDict [("predictions", tides_fetched)].

Definition E : env := env_at 14 5 (answers tides).

(** The same run with a config.yaml that sets both recognised keys. *)
Definition config : pyval :=
  PyDict [("fqdn_ip", PyStr "192.168.1.50");
          ("sampling", PyDict [("time", PyInt 600)])].

Definition E_configured : env :=
  mk_env (clock_at 14 5) (fun _ => Ok config) (answers tides) (fun _ => Ok 0).

(** The error body of the tide service: a JSON object without the
    predictions key. *)
Definition no_data : pyval :=
  PyDict [("error", PyDict [("message", PyStr "No Predictions data was found.")])].

Definition start : world := mk_world 0 [].

(** The world when lines 83 to 95 of [main] have run in [E]. *)
Definition after_setup : world :=
  Eval vm_compute in snd (main_setup E start).

End Sample.

(** * Facts *)

(** ** Facts about datetimes *)

Section DatetimeFacts.

Ltac by_fields a := destruct a as [?o ?h ?m ?s ?u].

Ltac cmp_step x y :=
  destruct (Z.compare_spec x y); simpl in *; subst;
  try discriminate; try lia; try reflexivity.

Lemma cmp_refl a : cmp a a = Eq.
Proof. by_fields a; unfold cmp; simpl; now rewrite !Z.compare_refl. Qed.

Lemma cmp_eq a b : cmp a b = Eq -> a = b.
Proof.
  by_fields a; by_fields b; unfold cmp; simpl.
  cmp_step o o0; cmp_step h h0; cmp_step m m0; cmp_step s s0; cmp_step u u0.
Qed.

Lemma cmp_antisym a b : cmp b a = CompOpp (cmp a b).
Proof.
  by_fields a; by_fields b; unfold cmp; simpl.
  rewrite (Z.compare_antisym o o0), (Z.compare_antisym h h0),
    (Z.compare_antisym m m0), (Z.compare_antisym s s0),
    (Z.compare_antisym u u0).
  destruct (o ?= o0), (h ?= h0), (m ?= m0), (s ?= s0), (u ?= u0); reflexivity.
Qed.

Lemma cmp_lt_before a b : cmp a b = Lt <-> before a b.
Proof.
  by_fields a; by_fields b; unfold cmp, before; simpl.
  cmp_step o o0; try (split; intros; solve [discriminate | reflexivity | lia]).
  cmp_step h h0; try (split; intros; solve [discriminate | reflexivity | lia]).
  cmp_step m m0; try (split; intros; solve [discriminate | reflexivity | lia]).
  cmp_step s s0; try (split; intros; solve [discriminate | reflexivity | lia]).
  cmp_step u u0; split; intros; solve [discriminate | reflexivity | lia].
Qed.

Lemma before_trans a b c : before a b -> before b c -> before a c.
Proof. unfold before; lia. Qed.

Lemma lt_trans a b c : lt a b = true -> lt b c = true -> lt a c = true.
Proof.
  unfold lt; intros Hab Hbc.
  destruct (cmp a b) eqn:Eab; try discriminate.
  destruct (cmp b c) eqn:Ebc; try discriminate.
  apply cmp_lt_before in Eab, Ebc.
  now rewrite (proj2 (cmp_lt_before a c) (before_trans _ _ _ Eab Ebc)).
Qed.

Lemma gt_lt a b : gt a b = lt b a.
Proof. unfold gt, lt; rewrite (cmp_antisym a b); now destruct (cmp a b). Qed.

Lemma le_lt a b : le a b = negb (lt b a).
Proof. unfold le, lt; rewrite (cmp_antisym a b); now destruct (cmp a b). Qed.

Lemma le_refl a : le a a = true.
Proof. unfold le; now rewrite cmp_refl. Qed.

Lemma le_cases a b : le a b = true -> a = b \/ lt a b = true.
Proof.
  unfold le, lt; destruct (cmp a b) eqn:Hc; try discriminate; intros _.
  - left; now apply cmp_eq.
  - now right.
Qed.

Lemma lt_le a b : lt a b = true -> le a b = true.
Proof. unfold le, lt; now destruct (cmp a b). Qed.

Lemma le_trans a b c : le a b = true -> le b c = true -> le a c = true.
Proof.
  intros Hab Hbc.
  destruct (le_cases _ _ Hab) as [-> | Hab']; [assumption |].
  destruct (le_cases _ _ Hbc) as [<- | Hbc']; [assumption |].
  apply lt_le; eauto using lt_trans.
Qed.

Lemma le_lt_trans a b c : le a b = true -> lt b c = true -> lt a c = true.
Proof.
  intros Hab Hbc.
  destruct (le_cases _ _ Hab) as [-> | Hab']; eauto using lt_trans.
Qed.

Lemma lt_le_trans a b c : lt a b = true -> le b c = true -> lt a c = true.
Proof.
  intros Hab Hbc.
  destruct (le_cases _ _ Hbc) as [<- | Hbc']; eauto using lt_trans.
Qed.

Lemma lt_irrefl a : lt a a = false.
Proof. unfold lt; now rewrite cmp_refl. Qed.

Lemma le_antisym a b : le a b = true -> le b a = true -> a = b.
Proof.
  intros Hab Hba. destruct (le_cases _ _ Hab) as [-> | Hlt]; [reflexivity |].
  rewrite le_lt, Hlt in Hba; discriminate.
Qed.

(** On valid datetimes the order is the order of the time line. *)
Lemma cmp_to_us a b : valid a -> valid b -> cmp a b = (to_us a ?= to_us b).
Proof.
  by_fields a; by_fields b; unfold valid, to_us, cmp; simpl; intros Ha Hb.
  symmetry.
  cmp_step o o0;
    [| apply Z.compare_lt_iff; lia | apply Z.compare_gt_iff; lia].
  cmp_step h h0;
    [| apply Z.compare_lt_iff; lia | apply Z.compare_gt_iff; lia].
  cmp_step m m0;
    [| apply Z.compare_lt_iff; lia | apply Z.compare_gt_iff; lia].
  cmp_step s s0;
    [| apply Z.compare_lt_iff; lia | apply Z.compare_gt_iff; lia].
  cmp_step u u0;
    [apply Z.compare_eq_iff; lia | apply Z.compare_lt_iff; lia
    | apply Z.compare_gt_iff; lia].
Qed.

Lemma le_to_us a b : valid a -> valid b -> le a b = (to_us a <=? to_us b).
Proof.
  intros Ha Hb; unfold le, Z.leb; now rewrite (cmp_to_us a b Ha Hb).
Qed.

Lemma lt_to_us a b : valid a -> valid b -> lt a b = (to_us a <? to_us b).
Proof.
  intros Ha Hb; unfold lt, Z.ltb; now rewrite (cmp_to_us a b Ha Hb).
Qed.

End DatetimeFacts.

Section TimedeltaFacts.

Lemma timedelta_new_ok d s us t :
  timedelta_new d s us = Ok t ->
  normalised t /\ timedelta_us t = (d * 86400 + s) * 1000000 + us.
Proof.
  unfold timedelta_new, normalised, timedelta_us.
  destruct (Z.abs _ <=? 999999999); [| discriminate].
  intros [= <-]; simpl.
  Z.div_mod_to_equations. lia.
Qed.

Lemma timedelta_new_raise d s us e :
  timedelta_new d s us = Raise e -> e = OverflowError.
Proof.
  unfold timedelta_new. destruct (Z.abs _ <=? 999999999); congruence.
Qed.

Lemma timedelta_new_range d s us :
  let total := (d * 86400 + s) * 1000000 + us in
  if (-999999999 * 86400000000 <=? total) && (total <? 1000000000 * 86400000000)
  then exists t, timedelta_new d s us = Ok t
  else timedelta_new d s us = Raise OverflowError.
Proof.
  unfold timedelta_new.
  destruct (Z.leb_spec (Z.abs (d + (s + us / 1000000) / 86400)) 999999999);
    destruct (Z.leb_spec (-999999999 * 86400000000)
                ((d * 86400 + s) * 1000000 + us));
    destruct (Z.ltb_spec ((d * 86400 + s) * 1000000 + us)
                (1000000000 * 86400000000));
    simpl; eauto; exfalso; Z.div_mod_to_equations; lia.
Qed.

Lemma timedelta_cmp_us a b :
  normalised a -> normalised b ->
  timedelta_cmp a b = (timedelta_us a ?= timedelta_us b).
Proof.
  destruct a as [d s u], b as [d' s' u'].
  unfold normalised, timedelta_cmp, timedelta_us; simpl; intros Ha Hb.
  symmetry.
  destruct (Z.compare_spec d d'); subst;
    [| apply Z.compare_lt_iff; lia | apply Z.compare_gt_iff; lia].
  destruct (Z.compare_spec s s'); subst;
    [| apply Z.compare_lt_iff; lia | apply Z.compare_gt_iff; lia].
  destruct (Z.compare_spec u u'); subst;
    [apply Z.compare_eq_iff; lia | apply Z.compare_lt_iff; lia
    | apply Z.compare_gt_iff; lia].
Qed.

Lemma timedelta_le_us a b :
  normalised a -> normalised b ->
  timedelta_le a b = (timedelta_us a <=? timedelta_us b).
Proof.
  intros Ha Hb; unfold timedelta_le, Z.leb.
  now rewrite (timedelta_cmp_us a b Ha Hb).
Qed.

Lemma to_us_secs dt :
  to_us dt =
  (ordinal dt * 86400 + (second dt + minute dt * 60 + hour dt * 3600))
  * 1000000 + microsecond dt.
Proof. unfold to_us; lia. Qed.

(** The difference of two datetimes is their distance on the time line. *)
Lemma sub_spec a b :
  valid a -> valid b ->
  exists t, sub a b = Ok t /\ normalised t /\
            timedelta_us t = to_us a - to_us b.
Proof.
  intros Ha Hb.
  pose proof (timedelta_new_range (ordinal a - ordinal b)
    ((second a + minute a * 60 + hour a * 3600)
     - (second b + minute b * 60 + hour b * 3600))
    (microsecond a - microsecond b)) as Hr.
  cbv zeta in Hr.
  match type of Hr with
  | if ?c then _ else _ => assert (Hc : c = true)
  end.
  { unfold valid, MAXORDINAL in *. apply andb_true_iff; split;
      [apply Z.leb_le | apply Z.ltb_lt]; lia. }
  rewrite Hc in Hr. destruct Hr as [t Ht]. exists t.
  unfold sub. split; [exact Ht |].
  destruct (timedelta_new_ok _ _ _ _ Ht) as [Hn Hus].
  split; [exact Hn |]. rewrite Hus, !to_us_secs. lia.
Qed.

Lemma valid_in_range dt : valid dt -> in_range (to_us dt).
Proof. unfold valid, in_range, to_us, MAXORDINAL; lia. Qed.

(** [dt + td] moves [dt] by [td] on the time line, and raises
    [OverflowError] exactly when that leaves the representable range. *)
Lemma add_spec dt td :
  valid dt -> normalised td ->
  (in_range (to_us dt + timedelta_us td) ->
   exists r, add dt td = Ok r /\ valid r /\
             to_us r = to_us dt + timedelta_us td) /\
  (~ in_range (to_us dt + timedelta_us td) ->
   add dt td = Raise OverflowError).
Proof.
  intros Hv Hn.
  unfold add.
  destruct (timedelta_new (ordinal dt) _ (microsecond dt)) as [d0 | e] eqn:H0.
  2:{ exfalso. pose proof (timedelta_new_range (ordinal dt)
        (second dt + minute dt * 60 + hour dt * 3600) (microsecond dt)) as Hr.
      cbv zeta in Hr. rewrite H0 in Hr.
      match type of Hr with
      | if ?c then _ else _ => assert (Hc : c = true)
      end.
      { unfold valid, MAXORDINAL in *. apply andb_true_iff; split;
          [apply Z.leb_le | apply Z.ltb_lt]; lia. }
      rewrite Hc in Hr. destruct Hr as [t Ht]. discriminate. }
  destruct (timedelta_new_ok _ _ _ _ H0) as [Hn0 Hus0].
  rewrite <- to_us_secs in Hus0.
  simpl. unfold timedelta_add.
  pose proof (timedelta_new_range (days d0 + days td)
    (seconds d0 + seconds td) (microseconds d0 + microseconds td)) as Hr.
  cbv zeta in Hr.
  assert (Htot : (days d0 + days td) * 86400 + (seconds d0 + seconds td) =
                 (days d0 * 86400 + seconds d0) + (days td * 86400 + seconds td))
    by lia.
  destruct (timedelta_new (days d0 + days td) _ _) as [delta | e] eqn:H1.
  - destruct (timedelta_new_ok _ _ _ _ H1) as [Hn1 Hus1].
    simpl.
    assert (Hsum : timedelta_us delta = to_us dt + timedelta_us td).
    { rewrite Hus1, <- Hus0. unfold timedelta_us. lia. }
    unfold in_range. rewrite <- Hsum.
    unfold normalised, timedelta_us, MAXORDINAL in *.
    destruct delta as [dd ds du]; simpl in *.
    destruct (Z.ltb_spec 0 dd); destruct (Z.leb_spec dd 3652059); simpl;
      (split; [intros Hin | intros Hout]); try (exfalso; lia); try reflexivity.
    eexists; split; [reflexivity |].
    unfold valid, to_us, MAXORDINAL; simpl.
    Z.div_mod_to_equations. lia.
  - simpl. rewrite (timedelta_new_raise _ _ _ _ H1). split; [| reflexivity].
    intros Hin. exfalso.
    match type of Hr with
    | if ?c then _ else _ => destruct c eqn:Hc
    end.
    + destruct Hr; discriminate.
    + unfold in_range, MAXORDINAL in Hin. rewrite <- Hus0 in Hin.
      unfold timedelta_us in Hin.
      apply andb_false_iff in Hc.
      destruct Hc as [Hc | Hc];
        [apply Z.leb_gt in Hc | apply Z.ltb_ge in Hc]; lia.
Qed.

Lemma in_range_dec us : {in_range us} + {~ in_range us}.
Proof.
  unfold in_range.
  destruct (Z_le_dec 86400000000 us);
    [destruct (Z_lt_dec us ((MAXORDINAL + 1) * 86400000000)) |];
    (left; lia) || (right; lia).
Qed.

Lemma add_ok dt td r :
  valid dt -> normalised td -> add dt td = Ok r ->
  valid r /\ to_us r = to_us dt + timedelta_us td.
Proof.
  intros Hv Hn Hadd. destruct (add_spec dt td Hv Hn) as [Hin Hout].
  destruct (in_range_dec (to_us dt + timedelta_us td)) as [H | H].
  - destruct (Hin H) as (r' & Hr' & Hv' & Hus'). split; congruence.
  - rewrite (Hout H) in Hadd. discriminate.
Qed.

Lemma add_raise dt td e :
  valid dt -> normalised td -> add dt td = Raise e ->
  e = OverflowError /\ ~ in_range (to_us dt + timedelta_us td).
Proof.
  intros Hv Hn Hadd. destruct (add_spec dt td Hv Hn) as [Hin Hout].
  destruct (in_range_dec (to_us dt + timedelta_us td)) as [H | H].
  - destruct (Hin H) as (r' & Hr' & _). congruence.
  - rewrite (Hout H) in Hadd. split; congruence.
Qed.

End TimedeltaFacts.

Section RoundFacts.

Lemma timedelta_hours_1 : timedelta_hours 1 = Ok (mk_timedelta 0 3600 0).
Proof. reflexivity. Qed.

Lemma replace_zero dt :
  replace dt 0 0 0 = Ok (mk_datetime (ordinal dt) (hour dt) 0 0 0).
Proof. reflexivity. Qed.

Lemma round_down dt :
  minute dt < 30 ->
  round_to_nearest_hour dt = Ok (mk_datetime (ordinal dt) (hour dt) 0 0 0).
Proof.
  intros Hm. unfold round_to_nearest_hour.
  destruct (Z.leb_spec 30 (minute dt)); [lia | reflexivity].
Qed.

Lemma round_up dt :
  30 <= minute dt ->
  round_to_nearest_hour dt =
  (dt' <- add dt (mk_timedelta 0 3600 0) ;; replace dt' 0 0 0)%result.
Proof.
  intros Hm. unfold round_to_nearest_hour.
  destruct (Z.leb_spec 30 (minute dt)); [| lia].
  now rewrite timedelta_hours_1.
Qed.

(** The fields of the rounded datetime, and the one case that leaves the
    representable range. *)
Lemma round_fields dt :
  valid dt ->
  round_to_nearest_hour dt =
  if minute dt <? 30 then Ok (mk_datetime (ordinal dt) (hour dt) 0 0 0)
  else if hour dt <? 23 then Ok (mk_datetime (ordinal dt) (hour dt + 1) 0 0 0)
  else if ordinal dt <? MAXORDINAL
       then Ok (mk_datetime (ordinal dt + 1) 0 0 0 0)
       else Raise OverflowError.
Proof.
  intros Hv.
  destruct (Z.ltb_spec (minute dt) 30) as [Hm | Hm]; [now apply round_down |].
  rewrite (round_up dt Hm).
  assert (Hn : normalised (mk_timedelta 0 3600 0))
    by (unfold normalised; simpl; lia).
  destruct (add_spec dt _ Hv Hn) as [Hin Hout].
  destruct (Z.ltb_spec (hour dt) 23) as [Hh | Hh];
    [| destruct (Z.ltb_spec (ordinal dt) MAXORDINAL) as [Ho | Ho]].
  - destruct Hin as (r & -> & Hr & Hus).
    + unfold in_range, valid, to_us, timedelta_us, MAXORDINAL in *; simpl; lia.
    + cbn [rbind]. rewrite replace_zero.
      unfold valid, to_us, timedelta_us, MAXORDINAL in *; simpl in *.
      f_equal; f_equal; lia.
  - destruct Hin as (r & -> & Hr & Hus).
    + unfold in_range, valid, to_us, timedelta_us, MAXORDINAL in *; simpl; lia.
    + cbn [rbind]. rewrite replace_zero.
      unfold valid, to_us, timedelta_us, MAXORDINAL in *; simpl in *.
      f_equal; f_equal; lia.
  - rewrite Hout; [reflexivity |].
    unfold in_range, valid, to_us, timedelta_us, MAXORDINAL in *; simpl; lia.
Qed.

End RoundFacts.

(** ** The tide analyzer *)

Section Analyzer.

Variable strptime : string -> string -> result datetime.
Variable E : env.

Lemma scan_prediction_reads now closest p r :
  reads strptime p r ->
  scan_prediction strptime now closest p =
  Ok (if eq_str (snd r) "H" then track now closest (fst r) else closest).
Proof.
  intros (t & Ht & Hd & Hty). destruct closest as [past future].
  unfold scan_prediction, track. rewrite Ht; simpl. rewrite Hd; simpl.
  rewrite Hty; simpl.
  destruct (eq_str (snd r) "H"); [| reflexivity].
  destruct (le (fst r) now).
  - destruct past as [past |]; [destruct (gt (fst r) past) |]; reflexivity.
  - destruct future as [future |]; [destruct (lt (fst r) future) |];
      reflexivity.
Qed.

Lemma for_each_scan now preds recs :
  Forall2 (reads strptime) preds recs ->
  forall closest,
    for_each (scan_prediction strptime now) preds closest =
    Ok (fold_left (track now) (high_tides recs) closest).
Proof.
  induction 1 as [| p r preds recs Hp _ IH]; intros closest; simpl.
  - reflexivity.
  - rewrite (scan_prediction_reads now closest p r Hp). simpl.
    unfold high_tides; simpl.
    destruct (eq_str (snd r) "H"); simpl; apply IH.
Qed.

Lemma track_past now hs past future d :
  latest_at_or_before now hs past ->
  latest_at_or_before now (hs ++ [d]) (fst (track now (past, future) d)).
Proof.
  unfold track, latest_at_or_before; simpl.
  destruct (le d now) eqn:Hd.
  - destruct past as [p |].
    + intros (Hin & Hle & Hmax). rewrite gt_lt.
      destruct (lt p d) eqn:Hpd; simpl.
      * split; [apply in_or_app; right; now left |]. split; [assumption |].
        intros h Hh Hhn. apply in_app_or in Hh. destruct Hh as [Hh | [<- | []]].
        -- apply lt_le. apply (le_lt_trans h p d); auto.
        -- apply le_refl.
      * split; [apply in_or_app; now left |]. split; [assumption |].
        intros h Hh Hhn. apply in_app_or in Hh. destruct Hh as [Hh | [<- | []]].
        -- auto.
        -- rewrite le_lt, Hpd. reflexivity.
    + intros Hnone; simpl.
      split; [apply in_or_app; right; now left |]. split; [assumption |].
      intros h Hh Hhn. apply in_app_or in Hh. destruct Hh as [Hh | [<- | []]].
      * rewrite (Hnone h Hh) in Hhn; discriminate.
      * apply le_refl.
  - assert (Hkeep : fst (match future with
                         | Some f => if lt d f then (past, Some d)
                                     else (past, future)
                         | None => (past, Some d)
                         end) = past).
    { destruct future as [f |]; [destruct (lt d f) |]; reflexivity. }
    rewrite Hkeep. destruct past as [p |].
    + intros (Hin & Hle & Hmax).
      split; [apply in_or_app; now left |]. split; [assumption |].
      intros h Hh Hhn. apply in_app_or in Hh. destruct Hh as [Hh | [<- | []]].
      * auto.
      * rewrite Hd in Hhn; discriminate.
    + intros Hnone h Hh. apply in_app_or in Hh.
      destruct Hh as [Hh | [<- | []]]; auto.
Qed.

Lemma track_future now hs past future d :
  earliest_after now hs future ->
  earliest_after now (hs ++ [d]) (snd (track now (past, future) d)).
Proof.
  unfold track, earliest_after; simpl.
  destruct (le d now) eqn:Hd.
  - assert (Hkeep : snd (match past with
                         | Some p => if gt d p then (Some d, future)
                                     else (past, future)
                         | None => (Some d, future)
                         end) = future).
    { destruct past as [p |]; [destruct (gt d p) |]; reflexivity. }
    rewrite Hkeep.
    assert (Hnd : lt now d = false) by (rewrite le_lt in Hd; now destruct (lt now d)).
    destruct future as [f |].
    + intros (Hin & Hlt & Hmin).
      split; [apply in_or_app; now left |]. split; [assumption |].
      intros h Hh Hhn. apply in_app_or in Hh. destruct Hh as [Hh | [<- | []]].
      * auto.
      * rewrite Hnd in Hhn; discriminate.
    + intros Hnone h Hh. apply in_app_or in Hh.
      destruct Hh as [Hh | [<- | []]]; auto.
  - assert (Hnd : lt now d = true) by (rewrite le_lt in Hd; now destruct (lt now d)).
    destruct future as [f |].
    + intros (Hin & Hlt & Hmin).
      destruct (lt d f) eqn:Hdf; simpl.
      * split; [apply in_or_app; right; now left |]. split; [assumption |].
        intros h Hh Hhn. apply in_app_or in Hh. destruct Hh as [Hh | [<- | []]].
        -- apply lt_le. apply (lt_le_trans d f h); auto.
        -- apply le_refl.
      * split; [apply in_or_app; now left |]. split; [assumption |].
        intros h Hh Hhn. apply in_app_or in Hh. destruct Hh as [Hh | [<- | []]].
        -- auto.
        -- rewrite le_lt, Hdf. reflexivity.
    + intros Hnone; simpl.
      split; [apply in_or_app; right; now left |]. split; [assumption |].
      intros h Hh Hhn. apply in_app_or in Hh. destruct Hh as [Hh | [<- | []]].
      * rewrite (Hnone h Hh) in Hhn; discriminate.
      * apply le_refl.
Qed.

Lemma fold_track now hs :
  latest_at_or_before now hs (fst (fold_left (track now) hs (None, None))) /\
  earliest_after now hs (snd (fold_left (track now) hs (None, None))).
Proof.
  induction hs as [| d hs IH] using rev_ind.
  - simpl. split; intros h [].
  - rewrite fold_left_app; simpl.
    destruct (fold_left (track now) hs (None, None)) as [past future].
    destruct IH as [IHp IHf]. split.
    + now apply track_past.
    + now apply track_future.
Qed.

(** The analyzer on a list of well-formed records: one reading of the
    clock, then the loop over the high-tide timestamps. *)
Lemma find_closest_high_tides_reads w preds recs :
  Forall2 (reads strptime) preds recs ->
  find_closest_high_tides strptime E (PyList preds) w
  = (Ok (fold_left (track (clock E (ticks w))) (high_tides recs) (None, None)),
     tick w).
Proof.
  intros Hrecs.
  unfold find_closest_high_tides, bind, datetime_now, lift; simpl.
  now rewrite (for_each_scan _ _ _ Hrecs).
Qed.

End Analyzer.

(** ** The high-tide window *)

Section Window.

Lemma in_windowb_spec rounded now :
  in_windowb rounded now = true <-> in_window rounded now.
Proof.
  unfold in_windowb, in_window.
  rewrite andb_true_iff, !Z.leb_le. tauto.
Qed.

Lemma round_valid dt r :
  valid dt -> round_to_nearest_hour dt = Ok r -> valid r.
Proof.
  intros Hv. unfold round_to_nearest_hour.
  assert (Hzero : forall d, valid d -> replace d 0 0 0 = Ok r -> valid r).
  { intros d Hd. rewrite replace_zero. intros [= <-].
    unfold valid in *; simpl; lia. }
  destruct (30 <=? minute dt).
  - rewrite timedelta_hours_1; simpl.
    destruct (add dt _) as [d | e] eqn:Hadd; simpl; [| discriminate].
    apply Hzero. eapply add_ok; [exact Hv | | exact Hadd].
    unfold normalised; simpl; lia.
  - simpl. now apply Hzero.
Qed.

Lemma two_hours_before rounded :
  valid rounded ->
  sub_timedelta rounded (mk_timedelta 0 7200 0)
  = add rounded (mk_timedelta (-1) 79200 0).
Proof. reflexivity. Qed.

(** Lines 119 to 126 on an identified tide, once the rounding is done. *)
Lemma samp_time_for_rounded default now tide rounded :
  valid now -> valid rounded ->
  round_to_nearest_hour tide = Ok rounded ->
  (forall s, samp_time_for default now (Some tide) = Ok s ->
             s = if in_windowb rounded now then PyInt 1500 else default) /\
  (1 < ordinal rounded -> ordinal rounded < MAXORDINAL \/ hour rounded < 21 ->
   exists s, samp_time_for default now (Some tide) = Ok s).
Proof.
  intros Hnow Hr Hround. unfold samp_time_for. rewrite Hround.
  change (timedelta_hours 2) with (Ok (mk_timedelta 0 7200 0)).
  change (timedelta_hours 3) with (Ok (mk_timedelta 0 10800 0)).
  cbn [rbind]. rewrite (two_hours_before rounded Hr).
  assert (Hn2 : normalised (mk_timedelta (-1) 79200 0))
    by (unfold normalised; simpl; lia).
  assert (Hn3 : normalised (mk_timedelta 0 10800 0))
    by (unfold normalised; simpl; lia).
  assert (Hus2 : timedelta_us (mk_timedelta (-1) 79200 0) = - hours 2)
    by reflexivity.
  assert (Hus3 : timedelta_us (mk_timedelta 0 10800 0) = hours 3)
    by reflexivity.
  unfold in_windowb.
  destruct (add rounded (mk_timedelta (-1) 79200 0)) as [lo | e] eqn:Hlo.
  - destruct (add_ok _ _ _ Hr Hn2 Hlo) as [Hlov Hlous]. rewrite Hus2 in Hlous.
    cbn [rbind]. rewrite (le_to_us lo now Hlov Hnow), Hlous.
    replace (to_us rounded + - hours 2) with (to_us rounded - hours 2) by lia.
    destruct (to_us rounded - hours 2 <=? to_us now) eqn:Hcmp; cbn [andb].
    + destruct (add rounded (mk_timedelta 0 10800 0)) as [hi | e] eqn:Hhi.
      * destruct (add_ok _ _ _ Hr Hn3 Hhi) as [Hhiv Hhius].
        rewrite Hus3 in Hhius. cbn [rbind].
        rewrite (le_to_us now hi Hnow Hhiv), Hhius.
        split.
        -- intros s. destruct (to_us now <=? _); now intros [= <-].
        -- intros _ _. destruct (to_us now <=? _); eauto.
      * cbn [rbind]. split; [discriminate |].
        intros Ho Hroom. exfalso.
        destruct (add_raise _ _ _ Hr Hn3 Hhi) as [_ Hout]. apply Hout.
        rewrite Hus3. unfold in_range, hours, valid, to_us, MAXORDINAL in *.
        lia.
    + split; [intros s [= <-]; reflexivity | eauto].
  - cbn [rbind]. split; [discriminate |].
    intros Ho _. exfalso.
    destruct (add_raise _ _ _ Hr Hn2 Hlo) as [_ Hout]. apply Hout.
    rewrite Hus2. unfold in_range, hours, valid, to_us, MAXORDINAL in *. lia.
Qed.

End Window.

(** ** Runs of [main] *)

Section Quiet.

Lemma invocations_app evs evs' :
  invocations (evs ++ evs') = (invocations evs ++ invocations evs')%list.
Proof.
  induction evs as [| [line | url | argv] evs IH]; simpl; congruence.
Qed.

Lemma quiet_ret {A} (a : A) : quiet (ret a).
Proof. intros w r w' [= _ <-]. reflexivity. Qed.

Lemma quiet_raise {A} e : quiet (@raise A e).
Proof. intros w r w' [= _ <-]. reflexivity. Qed.

Lemma quiet_lift {A} (x : result A) : quiet (lift x).
Proof. intros w r w' [= _ <-]. reflexivity. Qed.

Lemma quiet_print line : quiet (print line).
Proof.
  intros w r w' [= _ <-]. simpl. rewrite invocations_app. simpl.
  apply app_nil_r.
Qed.

Lemma quiet_http_get url : quiet (emit (HttpGet url)).
Proof.
  intros w r w' [= _ <-]. simpl. rewrite invocations_app. simpl.
  apply app_nil_r.
Qed.

Lemma quiet_now E : quiet (datetime_now E).
Proof. intros w r w' [= _ <-]. reflexivity. Qed.

Lemma quiet_read_local {A} (v : option A) : quiet (read_local v).
Proof. destruct v; [apply quiet_ret | apply quiet_raise]. Qed.

Lemma quiet_bind {A B} (m : M A) (k : A -> M B) :
  quiet m -> (forall a, quiet (k a)) -> quiet (bind m k).
Proof.
  intros Hm Hk w r w'. unfold bind.
  destruct (m w) as [[a | e] w1] eqn:Hmw.
  - intros Hkw. rewrite (Hk a _ _ _ Hkw). eapply Hm; eassumption.
  - intros [= _ <-]. eapply Hm; eassumption.
Qed.

Lemma quiet_if {A} (b : bool) (m1 m2 : M A) :
  quiet m1 -> quiet m2 -> quiet (if b then m1 else m2).
Proof. now destruct b. Qed.

Lemma quiet_try_except {A} (body : M A) clauses :
  quiet body ->
  Forall (fun clause => forall e, quiet (snd clause e)) clauses ->
  quiet (try_except body clauses).
Proof.
  intros Hb Hc w r w'. unfold try_except.
  destruct (body w) as [[a | e] w1] eqn:Hbw.
  - intros [= _ <-]. eapply Hb; eassumption.
  - assert (Hh : forall h, handler_for e clauses = Some h -> quiet h).
    { clear - Hc. induction Hc as [| [classes h'] rest Hh' _ IH]; simpl.
      - discriminate.
      - intros h. destruct (existsb (isinstance e) classes).
        + intros [= <-]. apply Hh'.
        + apply IH. }
    destruct (handler_for e clauses) as [h |].
    + intros Hrun. rewrite (Hh h eq_refl _ _ _ Hrun). eapply Hb; eassumption.
    + intros [= _ <-]. eapply Hb; eassumption.
Qed.

End Quiet.

Create HintDb quiet.

#[local] Hint Resolve quiet_ret quiet_raise quiet_lift quiet_print
  quiet_http_get quiet_now quiet_read_local : quiet.

Ltac quiet :=
  repeat first
    [ apply quiet_bind; [| intros ?]
    | apply quiet_try_except; [| repeat constructor; intros ?]
    | apply quiet_if
    | match goal with |- quiet (match ?x with _ => _ end) => destruct x end
    | solve [auto with quiet] ].

Section Runs.

Variable strptime : string -> string -> result datetime.
Variable E : env.

Lemma quiet_load_config path : quiet (load_config E path).
Proof. unfold load_config. quiet. Qed.

Lemma quiet_get_tide_predictions coops now_str :
  quiet (get_tide_predictions E coops now_str).
Proof. unfold get_tide_predictions, fetch_failed. quiet. Qed.

Lemma quiet_main_setup : quiet (main_setup E).
Proof.
  unfold main_setup. pose proof quiet_load_config.
  pose proof quiet_get_tide_predictions. quiet.
Qed.

Lemma quiet_find_closest_high_tides predictions :
  quiet (find_closest_high_tides strptime E predictions).
Proof. unfold find_closest_high_tides. quiet. Qed.

Lemma quiet_main_select default predictions :
  quiet (main_select strptime E default predictions).
Proof.
  unfold main_select. pose proof quiet_find_closest_high_tides. quiet.
Qed.

End Runs.

Section Stages.

Variable strptime : string -> string -> result datetime.
Variable E : env.

(** [main] is its three stages in sequence. *)
Lemma main_stages w0 :
  main strptime E w0 =
  match main_setup E w0 with
  | (Ok (default, predictions), w1) =>
      match main_select strptime E default predictions w1 with
      | (Ok samp_time, w2) => main_launch E samp_time w2
      | (Raise e, w2) => (Raise e, w2)
      end
  | (Raise e, w1) => (Raise e, w1)
  end.
Proof.
  unfold main, bind.
  destruct (main_setup E w0) as [[[default predictions] | e] w1]; reflexivity.
Qed.

(** Lines 83 to 95 raise whenever [load_config] gives a configuration. *)
Lemma main_setup_config_loaded w0 config :
  open_safe_load E "config.yaml" = Ok config ->
  is_none config = false ->
  exists e w1, main_setup E w0 = (Raise e, w1).
Proof.
  intros Hload Hsome.
  unfold main_setup, load_config, try_except, bind, lift.
  rewrite Hload. simpl.
  destruct (sub_timedelta _ _) as [yesterday | e]; [| eauto].
  rewrite Hsome. simpl.
  destruct (getitem config "fqdn_ip") as [fqdn_ip | e]; [| eauto].
  destruct (get config "sampling" (PyDict [])) as [sampling | e]; [| eauto].
  destruct (get sampling "time" (PyInt DEFAULT_SAMP_TIME)) as [t | e];
    [| eauto].
  unfold ret, read_local, raise. eauto.
Qed.

(** When lines 83 to 95 complete, no configuration was loaded and the
    default interval is the built-in one. *)
Lemma main_setup_returns w0 default predictions w1 :
  main_setup E w0 = (Ok (default, predictions), w1) ->
  default = PyInt DEFAULT_SAMP_TIME /\
  exists w, load_config E "config.yaml" w0 = (Ok PyNone, w).
Proof.
  unfold main_setup. unfold bind at 1.
  destruct (load_config E "config.yaml" w0) as [[config | e] wa] eqn:Hload;
    [| discriminate].
  unfold bind, lift. simpl.
  destruct (sub_timedelta _ _) as [yesterday | e]; [| discriminate].
  destruct (is_none config) eqn:Hnone; simpl.
  - destruct config; try discriminate. unfold ret, read_local. simpl.
    destruct (get_tide_predictions E _ _ _) as [[p | e] wb]; [| discriminate].
    intros [= <- _ _]. eauto.
  - destruct (getitem config "fqdn_ip") as [fqdn_ip | e]; [| discriminate].
    destruct (get config "sampling" (PyDict [])) as [sampling | e];
      [| discriminate].
    destruct (get sampling "time" (PyInt DEFAULT_SAMP_TIME));
      unfold ret, read_local, raise; discriminate.
Qed.

Lemma parse_datetime_valid t d :
  strptime_valid strptime -> parse_datetime strptime t = Ok d -> valid d.
Proof. intros Hs. destruct t; simpl; try discriminate. apply Hs. Qed.

Lemma scan_prediction_bracket now closest p closest' :
  strptime_valid strptime -> valid now ->
  bracket now closest ->
  scan_prediction strptime now closest p = Ok closest' ->
  bracket now closest'.
Proof.
  intros Hs Hnow Hb. destruct closest as [past future].
  unfold scan_prediction.
  destruct (getitem p "t") as [t | e]; [| discriminate]; simpl.
  destruct (parse_datetime strptime t) as [d | e] eqn:Hd; [| discriminate].
  apply (parse_datetime_valid _ _ Hs) in Hd. simpl.
  destruct (getitem p "type") as [type | e]; [| discriminate]; simpl.
  destruct (eq_str type "H"); [| now intros [= <-]].
  destruct Hb as [Hp Hf]. simpl in Hp, Hf.
  destruct (le d now) eqn:Hle.
  - destruct (match past with Some p0 => gt d p0 | None => true end);
      intros [= <-]; [| now split].
    split; simpl; [| assumption]. now intros ? [= <-].
  - destruct (match future with Some f => lt d f | None => true end);
      intros [= <-]; [| now split].
    split; simpl; [assumption |]. intros ? [= <-]. split; [assumption |].
    rewrite le_lt in Hle. now destruct (lt now d).
Qed.

Lemma for_each_bracket now items :
  strptime_valid strptime -> valid now ->
  forall closest closest',
    bracket now closest ->
    for_each (scan_prediction strptime now) items closest = Ok closest' ->
    bracket now closest'.
Proof.
  intros Hs Hnow. induction items as [| p items IH]; simpl.
  - now intros closest closest' Hb [= <-].
  - intros closest closest' Hb.
    destruct (scan_prediction strptime now closest p) as [c | e] eqn:Hscan;
      [| discriminate]. simpl.
    apply IH. eapply scan_prediction_bracket; eassumption.
Qed.

Lemma find_closest_high_tides_bracket predictions w past future w1 :
  strptime_valid strptime -> clock_valid E ->
  find_closest_high_tides strptime E predictions w = (Ok (past, future), w1) ->
  w1 = tick w /\ bracket (clock E (ticks w)) (past, future).
Proof.
  intros Hs Hc. unfold find_closest_high_tides, bind, datetime_now, lift.
  destruct (iter predictions) as [items | e]; [| discriminate].
  destruct (for_each _ items (None, None)) as [c | e] eqn:Hloop;
    intros [= -> <-].
  split; [reflexivity |].
  eapply for_each_bracket; try eassumption; [apply Hc |].
  split; discriminate.
Qed.

(** Lines 97 to 126 when tide data was fetched. *)
Lemma main_select_fetched default predictions w s w2 :
  is_none predictions = false ->
  main_select strptime E default predictions w = (Ok s, w2) ->
  exists past future closest,
    find_closest_high_tides strptime E predictions w
      = (Ok (past, future), tick w) /\
    closest_of (clock E (S (ticks w))) past future = Ok closest /\
    samp_time_for default (clock E (S (ticks w))) closest = Ok s /\
    w2 = mk_world (S (S (ticks w)))
           (trace w ++ [Print [Lit "Closest past high tide: "; Time past];
                        Print [Lit "Closest future high tide: "; Time future]]).
Proof.
  intros Hsome. unfold main_select. rewrite Hsome. unfold bind at 1.
  destruct (find_closest_high_tides strptime E predictions w)
    as [[[past future] | e] w1] eqn:Hfind; [| discriminate].
  assert (Hw1 : w1 = tick w).
  { revert Hfind. unfold find_closest_high_tides, bind, datetime_now, lift.
    destruct (iter predictions); [| discriminate].
    destruct (for_each _ _ _); now intros [= _ <-]. }
  subst w1. unfold bind, print, emit, datetime_now, lift, tick. simpl.
  destruct (closest_of _ past future) as [closest | e] eqn:Hc; [| discriminate].
  destruct (samp_time_for default _ closest) as [s' | e] eqn:Hsamp;
    intros [= <- <-].
  exists past, future, closest. rewrite <- app_assoc. auto.
Qed.

End Stages.

Section SampleFacts.

Lemma sample_strptime_valid : strptime_valid Sample.strptime.
Proof.
  intros s fmt d. unfold Sample.strptime.
  repeat match goal with
         | |- context [String.eqb ?a ?b] => destruct (String.eqb a b)
         end;
    intros [= <-]; unfold valid, MAXORDINAL; simpl; lia.
Qed.

Lemma sample_clock_valid h m service :
  0 <= h < 24 -> 0 <= m < 60 -> clock_valid (Sample.env_at h m service).
Proof.
  intros Hh Hm n. unfold valid, MAXORDINAL; simpl. lia.
Qed.

End SampleFacts.

Section Selection.

Variable strptime : string -> string -> result datetime.
Variable E : env.

Lemma closest_of_cases now past future closest :
  closest_of now past future = Ok closest ->
  closest = None /\ past = None /\ future = None \/
  (exists tide, closest = Some tide /\ (past = Some tide \/ future = Some tide)).
Proof.
  unfold closest_of. destruct past as [p |], future as [f |].
  - destruct (sub now p); [| discriminate]; simpl.
    destruct (sub f now); [| discriminate]; simpl.
    destruct (timedelta_le _ _); intros [= <-]; eauto.
  - intros [= <-]; eauto.
  - intros [= <-]; eauto.
  - intros [= <-]; auto.
Qed.

Lemma closest_of_total now past future :
  valid now ->
  (forall p, past = Some p -> valid p) ->
  (forall f, future = Some f -> valid f) ->
  exists closest, closest_of now past future = Ok closest.
Proof.
  intros Hnow Hp Hf. unfold closest_of.
  destruct past as [p |], future as [f |]; eauto.
  destruct (sub_spec now p Hnow (Hp p eq_refl)) as (since & -> & _).
  destruct (sub_spec f now (Hf f eq_refl) Hnow) as (until & -> & _).
  simpl. destruct (timedelta_le since until); eauto.
Qed.

Lemma samp_time_for_values default now closest s :
  samp_time_for default now closest = Ok s ->
  s = PyInt 1500 \/ s = default.
Proof.
  unfold samp_time_for. destruct closest as [tide |]; [| intros [= <-]; auto].
  destruct (round_to_nearest_hour tide); [| discriminate]; cbn [rbind].
  destruct (timedelta_hours 2); [| discriminate]; cbn [rbind].
  destruct (sub_timedelta _ _); [| discriminate]; cbn [rbind].
  destruct (le _ now); [| intros [= <-]; auto].
  destruct (timedelta_hours 3); [| discriminate]; cbn [rbind].
  destruct (add _ _); [| discriminate]; cbn [rbind].
  destruct (le now _); intros [= <-]; auto.
Qed.

Lemma main_select_absent default w :
  main_select strptime E default PyNone w = (Ok default, w).
Proof. reflexivity. Qed.

Lemma main_select_values default predictions w s w2 :
  main_select strptime E default predictions w = (Ok s, w2) ->
  s = PyInt 1500 \/ s = default.
Proof.
  destruct (is_none predictions) eqn:Hnone.
  - destruct predictions; try discriminate. intros [= <- _]. auto.
  - intros Hrun.
    destruct (main_select_fetched _ _ _ _ _ _ _ Hnone Hrun)
      as (past & future & closest & _ & _ & Hsamp & _).
    eapply samp_time_for_values; eassumption.
Qed.

End Selection.

Section Totality.

Variable strptime : string -> string -> result datetime.
Variable E : env.

Lemma high_tides_in p recs :
  In p (high_tides recs) -> exists r, In r recs /\ fst r = p.
Proof.
  unfold high_tides. intros Hin. apply in_map_iff in Hin.
  destruct Hin as (r & Hr & Hf). apply filter_In in Hf. exists r. tauto.
Qed.

(** Away from the two ends of the calendar the selection never leaves the
    representable range. *)
Lemma samp_time_for_total default now tide :
  valid now -> valid tide -> 1 < ordinal tide < MAXORDINAL ->
  exists s, samp_time_for default now (Some tide) = Ok s.
Proof.
  intros Hnow Ht Ho.
  pose proof (round_fields tide Ht) as Hr.
  assert (Hrounded : exists rounded,
             round_to_nearest_hour tide = Ok rounded /\
             1 < ordinal rounded /\
             (ordinal rounded < MAXORDINAL \/ hour rounded < 21)).
  { rewrite Hr.
    destruct (minute tide <? 30); [eexists; split; [reflexivity | simpl; lia] |].
    destruct (hour tide <? 23); [eexists; split; [reflexivity | simpl; lia] |].
    destruct (Z.ltb_spec (ordinal tide) MAXORDINAL); [| lia].
    eexists; split; [reflexivity | simpl; lia]. }
  destruct Hrounded as (rounded & Hround & Hlow & Hhigh).
  destruct (samp_time_for_rounded default now tide rounded Hnow
              (round_valid _ _ Ht Hround) Hround) as [_ Htotal].
  now apply Htotal.
Qed.

Lemma main_select_total default preds recs w :
  strptime_valid strptime -> clock_valid E ->
  Forall2 (reads strptime) preds recs ->
  (forall r, In r recs -> 1 < ordinal (fst r) < MAXORDINAL) ->
  exists s w2, main_select strptime E default (PyList preds) w = (Ok s, w2).
Proof.
  intros Hs Hc Hrecs Hmid.
  pose proof (find_closest_high_tides_reads strptime E w _ _ Hrecs) as Hfind.
  destruct (fold_track (clock E (ticks w)) (high_tides recs)) as [Hpast Hfuture].
  destruct (fold_left _ (high_tides recs) (None, None)) as [past future].
  destruct (find_closest_high_tides_bracket _ _ _ _ _ _ _ Hs Hc Hfind)
    as [_ [Hbp Hbf]].
  simpl in Hpast, Hfuture, Hbp, Hbf.
  set (now := clock E (S (ticks w))).
  assert (Hnow : valid now) by apply Hc.
  destruct (closest_of_total now past future Hnow) as [closest Hclosest].
  { intros p Hp. now apply Hbp. }
  { intros f Hf. now apply Hbf. }
  assert (Hsamp : exists s, samp_time_for default now closest = Ok s).
  { destruct (closest_of_cases _ _ _ _ Hclosest)
      as [(-> & _) | (tide & -> & Hwhich)]; [simpl; eauto |].
    assert (Hin : In tide (high_tides recs)).
    { destruct Hwhich as [-> | ->]; [apply Hpast | apply Hfuture]. }
    assert (Hv : valid tide).
    { destruct Hwhich as [Hw | Hw]; [now apply Hbp | now apply Hbf]. }
    destruct (high_tides_in _ _ Hin) as (r & Hr & <-).
    apply samp_time_for_total; auto. }
  destruct Hsamp as [s Hsamp].
  unfold main_select.
  change (is_none (PyList preds)) with false. cbv iota. unfold bind at 1.
  rewrite Hfind. unfold bind, print, emit, datetime_now, lift, tick. simpl.
  fold now. rewrite Hclosest, Hsamp. eauto.
Qed.

End Totality.

Section Launching.

Variable E : env.

(** Lines 128 to 145: what [main_launch] adds to the trace. *)
Lemma main_launch_skips samp_time w :
  minute (clock E (ticks w)) = 30 -> ne_int samp_time 1500 = true ->
  main_launch E samp_time w =
  (Ok tt,
   mk_world (S (ticks w))
     (trace w ++
      [Print [Lit "Sampling time set to: "; Val samp_time; Lit " seconds"];
       Print [Lit "Running on :30 but not in high tide situation, skipping launch"]])).
Proof.
  intros Hm Hne. unfold main_launch, bind, print, emit, datetime_now. simpl.
  rewrite Hm. change (25 * 60) with 1500. rewrite Hne. simpl.
  now rewrite <- app_assoc.
Qed.

Lemma main_launch_spawns samp_time w :
  (minute (clock E (ticks w)) =? 30) && ne_int samp_time 1500 = false ->
  exists r w3,
    main_launch E samp_time w = (r, w3) /\
    invocations (trace w3) =
    (invocations (trace w) ++
     [[livox_logger; [Lit "conf/config-"; Val samp_time; Lit ".yaml"]]])%list.
Proof.
  intros Hguard.
  unfold main_launch, bind, print, emit, datetime_now. simpl.
  change (25 * 60) with 1500. rewrite Hguard.
  unfold try_except, bind, emit, lift. simpl.
  destruct (subprocess_run E _) as [returncode | e].
  - destruct (returncode =? 0); simpl; do 2 eexists; (split; [reflexivity |]);
      simpl; rewrite !invocations_app; simpl; now rewrite ?app_nil_r.
  - simpl.
    destruct (isinstance e CalledProcessError); simpl;
      [| destruct (isinstance e FileNotFoundError); simpl];
      do 2 eexists; (split; [reflexivity |]);
      simpl; rewrite !invocations_app; simpl; now rewrite ?app_nil_r.
Qed.

End Launching.

Section LowTides.

Lemma high_tides_none recs :
  (forall r, In r recs -> snd r = PyStr "L") -> high_tides recs = [].
Proof.
  unfold high_tides. induction recs as [| r recs IH]; intros Hlow; simpl.
  - reflexivity.
  - rewrite (Hlow r (or_introl eq_refl)). simpl.
    apply IH. intros r' Hr'. apply Hlow. now right.
Qed.

End LowTides.

Lemma sample_reads : Forall2 (reads Sample.strptime) Sample.predictions Sample.records.
Proof.
  repeat constructor; eexists; (split; [reflexivity |]); split; reflexivity.
Qed.

(** * The claims *)

(** C1 (the code departs from the claim).  The claim asks that no run ends
    with a non-zero exit status.  Whenever [load_config] returns a
    configuration, lines 83 to 95 of [main] raise: at the latest line 95
    reads the local [coops], which only the branch without a configuration
    assigns.  The exception is not caught, so the interpreter exits with
    status 1, and the logger is never started. *)
Theorem main_raises_when_config_loads strptime E w config :
  open_safe_load E "config.yaml" = Ok config ->
  is_none config = false ->
  exists e w',
    main strptime E w = (Raise e, w') /\
    exit_status (fst (main strptime E w)) = 1 /\
    invocations (trace w') = invocations (trace w).
Proof.
  intros Hload Hsome.
  destruct (main_setup_config_loaded E w config Hload Hsome) as (e & w1 & Hsetup).
  exists e, w1. rewrite main_stages, Hsetup.
  repeat split. apply (quiet_main_setup _ _ _ _ Hsetup).
Qed.

Lemma main_raises_when_config_loads_witness :
  exists e w',
    main Sample.strptime Sample.E_configured Sample.start = (Raise e, w') /\
    exit_status (fst (main Sample.strptime Sample.E_configured Sample.start)) = 1 /\
    invocations (trace w') = invocations (trace Sample.start).
Proof.
  apply (main_raises_when_config_loads Sample.strptime Sample.E_configured
           Sample.start Sample.config); reflexivity.
Defined.

(** With a config.yaml that sets both keys, [main] stops at line 95 on the
    unbound local [coops], before any request is sent. *)
Example main_configured :
  main Sample.strptime Sample.E_configured Sample.start
  = (Raise UnboundLocalError, mk_world 1 [Print [Lit "Config loaded"]]).
Proof. reflexivity. Qed.

(** Without a config.yaml, a record whose timestamp [strptime] rejects
    makes [main] stop in [find_closest_high_tides] with [ValueError]. *)
Example main_malformed_timestamp :
  main Sample.strptime
    (Sample.env_at 14 5
       (Sample.answers
          (PyDict [("predictions",
                    PyList [Sample.prediction "2024-05-01T16:22" "1.377" "H"])])))
    Sample.start
  = (Raise ValueError,
     mk_world 2
       [Print [Lit "File "; Lit "config.yaml"; Lit " not found."];
        Print [Lit "Failed to load config; using defaults"];
        HttpGet (datagetter_url [Lit "9410230"]
                   [Strftime (mk_datetime 739006 14 5 0 0) "%Y%m%d"])]).
Proof. reflexivity. Qed.

(** C2.  On a list of prediction records the analyzer reads the clock once
    and scans the list once.  It returns the latest high-tide timestamp that
    is at or before now and the earliest one that is after now, each absent
    when there is none; a high tide exactly at now is the past one; the
    result depends only on the timestamps of the records of type 'H', so
    records of type 'L' do not affect it; and a later record whose timestamp
    equals the current best leaves the kept value as it is, the comparisons
    being strict. *)
Theorem find_closest_high_tides_spec strptime E w preds recs :
  Forall2 (reads strptime) preds recs ->
  let now := clock E (ticks w) in
  let hs := high_tides recs in
  exists past future,
    find_closest_high_tides strptime E (PyList preds) w
      = (Ok (past, future), tick w) /\
    latest_at_or_before now hs past /\
    earliest_after now hs future /\
    (In now hs -> past = Some now) /\
    (forall preds' recs',
        Forall2 (reads strptime) preds' recs' ->
        high_tides recs' = hs ->
        find_closest_high_tides strptime E (PyList preds') w
        = find_closest_high_tides strptime E (PyList preds) w) /\
    (forall p d kept,
        reads strptime p (d, PyStr "H") ->
        (le d now = true ->
         scan_prediction strptime now (Some d, kept) p = Ok (Some d, kept)) /\
        (le d now = false ->
         scan_prediction strptime now (kept, Some d) p = Ok (kept, Some d))).
Proof.
  intros Hrecs now hs.
  pose proof (find_closest_high_tides_reads strptime E w) as Hrun.
  fold now in Hrun.
  destruct (fold_track now hs) as [Hpast Hfuture].
  destruct (fold_left (track now) hs (None, None)) as [past future] eqn:Hfold.
  simpl in Hpast, Hfuture.
  exists past, future. repeat split.
  - rewrite (Hrun _ _ Hrecs). fold hs. now rewrite Hfold.
  - exact Hpast.
  - exact Hfuture.
  - intros Hnow. unfold latest_at_or_before in Hpast.
    destruct past as [p |].
    + destruct Hpast as (_ & Hle & Hmax). f_equal.
      apply le_antisym; [assumption | apply Hmax; [assumption | apply le_refl]].
    + specialize (Hpast now Hnow). rewrite le_refl in Hpast; discriminate.
  - intros preds' recs' H' Hsame.
    rewrite (Hrun _ _ H'), (Hrun _ _ Hrecs). now rewrite Hsame.
  - intros Hd. rewrite (scan_prediction_reads strptime now _ p _ H); simpl.
    unfold track; simpl. now rewrite Hd, gt_lt, lt_irrefl.
  - intros Hd. rewrite (scan_prediction_reads strptime now _ p _ H); simpl.
    unfold track; simpl. now rewrite Hd, lt_irrefl.
Qed.

Lemma find_closest_high_tides_spec_witness :
  exists past future,
    find_closest_high_tides Sample.strptime Sample.E
      (PyList Sample.predictions) Sample.start
      = (Ok (past, future), mk_world 1 []) /\
    latest_at_or_before (Sample.clock_at 14 5 0) (high_tides Sample.records) past /\
    earliest_after (Sample.clock_at 14 5 0) (high_tides Sample.records) future.
Proof.
  destruct (find_closest_high_tides_spec Sample.strptime Sample.E Sample.start
              Sample.predictions Sample.records sample_reads)
    as (past & future & Hrun & Hpast & Hfuture & _).
  exists past, future. repeat split; assumption.
Defined.

Example find_closest_high_tides_sample :
  find_closest_high_tides Sample.strptime Sample.E
    (PyList Sample.predictions) Sample.start
  = (Ok (Some (mk_datetime 739007 3 41 0 0),
         Some (mk_datetime 739007 16 22 0 0)), mk_world 1 []).
Proof. reflexivity. Qed.

(** C3.  [past] and [future] are the analyzer's two results for the instant
    [reference], so [past <= reference < future]; [now] is the later reading
    of the clock in [main].  With both present the choice is the one at the
    smaller distance from [now], the past one when the distances are equal;
    one alone is chosen; with neither, none is.  In particular a past tide
    90 minutes before now loses to a future tide 60 minutes after now. *)
Theorem closest_of_spec (reference now past future : datetime) :
  valid now -> valid past -> valid future ->
  le past reference = true -> lt reference future = true ->
  closest_of now (Some past) (Some future)
    = Ok (Some (if distance now past <=? distance future now
                then past else future)) /\
  closest_of now (Some past) None = Ok (Some past) /\
  closest_of now None (Some future) = Ok (Some future) /\
  closest_of now None None = Ok None /\
  (to_us past = to_us now - minutes 90 ->
   to_us future = to_us now + minutes 60 ->
   closest_of now (Some past) (Some future) = Ok (Some future)).
Proof.
  intros Hn Hp Hf Hpr Hrf.
  assert (Hpf : to_us past < to_us future).
  { apply Z.ltb_lt. rewrite <- lt_to_us by assumption.
    eapply le_lt_trans; eassumption. }
  assert (Hboth : closest_of now (Some past) (Some future)
                  = Ok (Some (if distance now past <=? distance future now
                              then past else future))).
  { unfold closest_of.
    destruct (sub_spec now past Hn Hp) as (since & -> & Hsn & Hsus).
    destruct (sub_spec future now Hf Hn) as (until & -> & Hun & Huus).
    simpl. rewrite (timedelta_le_us _ _ Hsn Hun), Hsus, Huus.
    unfold distance.
    destruct (Z.leb_spec (to_us now - to_us past) (to_us future - to_us now));
      destruct (Z.leb_spec (Z.abs (to_us now - to_us past))
                  (Z.abs (to_us future - to_us now)));
      try reflexivity; lia. }
  repeat split; try reflexivity; try assumption.
  intros Hpast Hfuture. rewrite Hboth. unfold distance, minutes in *.
  destruct (Z.leb_spec (Z.abs (to_us now - to_us past))
              (Z.abs (to_us future - to_us now))); [lia | reflexivity].
Qed.

Lemma closest_of_spec_witness :
  closest_of (mk_datetime 739007 14 5 0 0)
    (Some (mk_datetime 739007 12 35 0 0)) (Some (mk_datetime 739007 15 5 0 0))
  = Ok (Some (mk_datetime 739007 15 5 0 0)).
Proof.
  apply (closest_of_spec (mk_datetime 739007 14 4 59 0)
           (mk_datetime 739007 14 5 0 0)
           (mk_datetime 739007 12 35 0 0) (mk_datetime 739007 15 5 0 0));
    try (unfold valid, MAXORDINAL; simpl; lia); reflexivity.
Defined.

(** C4.  A run of [main] has completed lines 83 to 95 with the default
    interval [default] and the fetched [predictions]; [now] is the reading of
    the clock at line 106.  Without tide data the interval is the default.
    With tide data, whenever lines 97 to 126 return an interval, it is 1500
    exactly when a closest high tide was identified and [now] lies within two
    hours before and three hours after that tide rounded to the hour, both
    ends included, and it is the default otherwise.  On a list of
    well-formed records whose dates are not the first or the last day of
    the calendar, lines 97 to 126 do return an interval. *)
Theorem high_tide_window strptime E w0 default predictions w1 :
  strptime_valid strptime -> clock_valid E ->
  main_setup E w0 = (Ok (default, predictions), w1) ->
  let now := clock E (S (ticks w1)) in
  (is_none predictions = true ->
   main_select strptime E default predictions w1 = (Ok default, w1)) /\
  (is_none predictions = false ->
   forall s w2,
     main_select strptime E default predictions w1 = (Ok s, w2) ->
     exists past future closest,
       find_closest_high_tides strptime E predictions w1
         = (Ok (past, future), tick w1) /\
       closest_of now past future = Ok closest /\
       (s = PyInt 1500 <->
        exists tide rounded,
          closest = Some tide /\
          round_to_nearest_hour tide = Ok rounded /\
          in_window rounded now) /\
       (s <> PyInt 1500 -> s = default)) /\
  (forall preds recs,
      predictions = PyList preds ->
      Forall2 (reads strptime) preds recs ->
      (forall r, In r recs -> 1 < ordinal (fst r) < MAXORDINAL) ->
      exists s w2,
        main_select strptime E default predictions w1 = (Ok s, w2)).
Proof.
  intros Hs Hc Hsetup now.
  destruct (main_setup_returns _ _ _ _ _ Hsetup) as [Hdefault _].
  split; [| split].
  - intros Hnone. destruct predictions; try discriminate. reflexivity.
  - intros Hsome s w2 Hrun.
    destruct (main_select_fetched _ _ _ _ _ _ _ Hsome Hrun)
      as (past & future & closest & Hfind & Hclosest & Hsamp & _).
    exists past, future, closest. split; [exact Hfind |].
    split; [exact Hclosest |].
    destruct (find_closest_high_tides_bracket _ _ _ _ _ _ _ Hs Hc Hfind)
      as [_ [Hbp Hbf]]. simpl in Hbp, Hbf.
    fold now in Hclosest, Hsamp.
    assert (Hnow : valid now) by apply Hc.
    destruct (closest_of_cases _ _ _ _ Hclosest)
      as [(-> & _) | (tide & -> & Hwhich)].
    + injection Hsamp as <-. split; [split |]; [| | reflexivity].
      * rewrite Hdefault. discriminate.
      * intros (tide & rounded & Habs & _). discriminate.
    + assert (Hv : valid tide).
      { destruct Hwhich as [Hw | Hw]; [now apply Hbp | now apply Hbf]. }
      destruct (round_to_nearest_hour tide) as [rounded | e] eqn:Hround.
      2:{ unfold samp_time_for in Hsamp. rewrite Hround in Hsamp.
          discriminate. }
      pose proof (round_valid _ _ Hv Hround) as Hrv.
      destruct (samp_time_for_rounded default now tide rounded Hnow Hrv Hround)
        as [Hvalue _].
      specialize (Hvalue s Hsamp).
      destruct (in_windowb rounded now) eqn:Hwin.
      * split; [split |]; [| auto | congruence].
        intros _. exists tide, rounded.
        split; [reflexivity |]. split; [exact Hround |].
        now apply in_windowb_spec.
      * split; [split |]; [| | auto].
        -- rewrite Hvalue, Hdefault. discriminate.
        -- intros (tide' & rounded' & [= <-] & Hround' & Hin).
           rewrite Hround in Hround'. injection Hround' as <-.
           apply in_windowb_spec in Hin. congruence.
  - intros preds recs -> Hrecs Hmid.
    now apply (main_select_total strptime E default preds recs).
Qed.

Lemma high_tide_window_witness :
  exists s w2,
    main_select Sample.strptime Sample.E (PyInt DEFAULT_SAMP_TIME)
      Sample.tides_fetched Sample.after_setup = (Ok s, w2).
Proof.
  destruct (high_tide_window Sample.strptime Sample.E Sample.start
              (PyInt DEFAULT_SAMP_TIME) Sample.tides_fetched Sample.after_setup
              sample_strptime_valid
              (sample_clock_valid 14 5 _ ltac:(lia) ltac:(lia))
              eq_refl) as (_ & _ & Htotal).
  apply (Htotal Sample.predictions Sample.records eq_refl sample_reads).
  intros r Hr. simpl in Hr.
  repeat (destruct Hr as [<- | Hr]; [unfold MAXORDINAL; simpl; lia |]).
  contradiction.
Defined.

(** The run of the sample at 14:05: the tide of 16:22 is the closer one, it
    rounds to 16:00, and 14:05 is inside the window. *)
Example main_select_sample :
  main_select Sample.strptime Sample.E (PyInt DEFAULT_SAMP_TIME)
    Sample.tides_fetched Sample.after_setup
  = (Ok (PyInt 1500),
     mk_world 3
       (trace Sample.after_setup ++
        [Print [Lit "Closest past high tide: ";
                Time (Some (mk_datetime 739007 3 41 0 0))];
         Print [Lit "Closest future high tide: ";
                Time (Some (mk_datetime 739007 16 22 0 0))]])).
Proof. reflexivity. Qed.

(** A tide that rounds to 15:00: 13:05 is inside the window, 10:59 is not. *)
Example samp_time_for_1305 :
  samp_time_for (PyInt 300) (mk_datetime 739007 13 5 0 0)
    (Some (mk_datetime 739007 15 10 0 0)) = Ok (PyInt 1500).
Proof. reflexivity. Qed.

Example samp_time_for_1059 :
  samp_time_for (PyInt 300) (mk_datetime 739007 10 59 0 0)
    (Some (mk_datetime 739007 15 10 0 0)) = Ok (PyInt 300).
Proof. reflexivity. Qed.

(** C5.  [round_to_nearest_hour] keeps the hour when the minute is below 30
    and moves to the next hour when it is 30 or more, across midnight if
    need be, and sets minute, second and microsecond to zero; so 14:29
    gives 14:00 and 14:30 gives 15:00.  The one hour that cannot be added
    is the last half hour of 9999-12-31, where the addition raises
    [OverflowError]. *)
Theorem round_to_nearest_hour_spec dt :
  valid dt ->
  (minute dt < 30 ->
   round_to_nearest_hour dt = Ok (mk_datetime (ordinal dt) (hour dt) 0 0 0)) /\
  (30 <= minute dt -> hour dt < 23 ->
   round_to_nearest_hour dt =
   Ok (mk_datetime (ordinal dt) (hour dt + 1) 0 0 0)) /\
  (30 <= minute dt -> hour dt = 23 -> ordinal dt < MAXORDINAL ->
   round_to_nearest_hour dt = Ok (mk_datetime (ordinal dt + 1) 0 0 0 0)) /\
  (30 <= minute dt -> hour dt = 23 -> ordinal dt = MAXORDINAL ->
   round_to_nearest_hour dt = Raise OverflowError) /\
  (hour dt = 14 -> minute dt = 29 ->
   round_to_nearest_hour dt = Ok (mk_datetime (ordinal dt) 14 0 0 0)) /\
  (hour dt = 14 -> minute dt = 30 ->
   round_to_nearest_hour dt = Ok (mk_datetime (ordinal dt) 15 0 0 0)).
Proof.
  intros Hv. rewrite (round_fields dt Hv).
  destruct (Z.ltb_spec (minute dt) 30); destruct (Z.ltb_spec (hour dt) 23);
    destruct (Z.ltb_spec (ordinal dt) MAXORDINAL);
    repeat split; intros; try lia; try reflexivity;
    repeat match goal with H : hour dt = _ |- _ => rewrite H end;
    reflexivity.
Qed.

Lemma round_to_nearest_hour_spec_witness :
  round_to_nearest_hour (mk_datetime 739000 14 29 59 999999)
    = Ok (mk_datetime 739000 14 0 0 0) /\
  round_to_nearest_hour (mk_datetime 739000 14 30 0 0)
    = Ok (mk_datetime 739000 15 0 0 0).
Proof.
  split.
  - apply (round_to_nearest_hour_spec (mk_datetime 739000 14 29 59 999999));
      unfold valid, MAXORDINAL; simpl; lia.
  - apply (round_to_nearest_hour_spec (mk_datetime 739000 14 30 0 0));
      unfold valid, MAXORDINAL; simpl; lia.
Defined.

(** C6.  A run of [main] has completed lines 83 to 126 with the interval
    [samp_time], which is 1500 (high-tide mode) or the built-in default.
    When the minute of the clock at line 131 is 30 and the mode is not
    high-tide mode, [main] returns normally and has started no process;
    in every other case, also at minute 30 in high-tide mode, it has called
    the logger once, with the configuration file of that interval. *)
Theorem half_hour_guard strptime E w0 default predictions w1 samp_time w2 :
  main_setup E w0 = (Ok (default, predictions), w1) ->
  main_select strptime E default predictions w1 = (Ok samp_time, w2) ->
  let current_minute := minute (clock E (ticks w2)) in
  let config_file := [Lit "conf/config-"; Val samp_time; Lit ".yaml"] in
  (samp_time = PyInt 1500 \/ samp_time = PyInt DEFAULT_SAMP_TIME) /\
  exists r w3,
    main strptime E w0 = (r, w3) /\
    (current_minute = 30 /\ samp_time <> PyInt 1500 ->
     r = Ok tt /\ invocations (trace w3) = invocations (trace w0)) /\
    (~ (current_minute = 30 /\ samp_time <> PyInt 1500) ->
     invocations (trace w3) =
     (invocations (trace w0) ++ [[livox_logger; config_file]])%list).
Proof.
  intros Hsetup Hselect current_minute config_file.
  destruct (main_setup_returns _ _ _ _ _ Hsetup) as [Hdefault _].
  assert (Hvalues : samp_time = PyInt 1500 \/ samp_time = PyInt DEFAULT_SAMP_TIME).
  { rewrite <- Hdefault. eapply main_select_values; eassumption. }
  split; [exact Hvalues |].
  assert (Hquiet : invocations (trace w2) = invocations (trace w0)).
  { rewrite (quiet_main_select _ _ _ _ _ _ _ Hselect).
    apply (quiet_main_setup _ _ _ _ Hsetup). }
  assert (Hne : ne_int samp_time 1500 = true <-> samp_time <> PyInt 1500).
  { destruct Hvalues as [-> | ->]; simpl; split;
      congruence || discriminate. }
  rewrite main_stages, Hsetup, Hselect.
  destruct ((minute (clock E (ticks w2)) =? 30) && ne_int samp_time 1500)
    eqn:Hguard.
  - apply andb_true_iff in Hguard. destruct Hguard as [Hm Hn].
    apply Z.eqb_eq in Hm.
    rewrite (main_launch_skips E samp_time w2 Hm Hn).
    do 2 eexists. split; [reflexivity |]. split.
    + intros _. split; [reflexivity |]. simpl.
      rewrite invocations_app. simpl. now rewrite app_nil_r.
    + intros Hnot. exfalso. apply Hnot. split; [exact Hm | now apply Hne].
  - destruct (main_launch_spawns E samp_time w2 Hguard) as (r & w3 & -> & Hinv).
    exists r, w3. split; [reflexivity |]. split.
    + intros [Hm Hn]. exfalso.
      apply andb_false_iff in Hguard. destruct Hguard as [Hg | Hg].
      * apply Z.eqb_neq in Hg. contradiction.
      * apply Hne in Hn. congruence.
    + intros _. now rewrite Hinv, Hquiet.
Qed.

Lemma half_hour_guard_witness :
  exists r w3,
    main Sample.strptime Sample.E Sample.start = (r, w3) /\
    invocations (trace w3) =
    [[livox_logger; [Lit "conf/config-"; Val (PyInt 1500); Lit ".yaml"]]].
Proof.
  destruct (half_hour_guard Sample.strptime Sample.E Sample.start
              (PyInt DEFAULT_SAMP_TIME) Sample.tides_fetched Sample.after_setup
              (PyInt 1500) _ eq_refl eq_refl)
    as (_ & r & w3 & Hrun & _ & Hlaunch).
  exists r, w3. split; [exact Hrun |].
  apply Hlaunch. simpl. intros [Hm _]. discriminate.
Defined.

(** At 10:30 the closer tide is the one of 16:22, whose window opens at
    14:00: default mode, and the guard ends the run before the launch. *)
Example main_at_1030 :
  main Sample.strptime (Sample.env_at 10 30 (Sample.answers Sample.tides))
    Sample.start
  = (Ok tt,
     mk_world 4
       [Print [Lit "File "; Lit "config.yaml"; Lit " not found."];
        Print [Lit "Failed to load config; using defaults"];
        HttpGet (datagetter_url [Lit "9410230"]
                   [Strftime (mk_datetime 739006 10 30 0 0) "%Y%m%d"]);
        Print [Lit "Closest past high tide: ";
               Time (Some (mk_datetime 739007 3 41 0 0))];
        Print [Lit "Closest future high tide: ";
               Time (Some (mk_datetime 739007 16 22 0 0))];
        Print [Lit "Sampling time set to: "; Val (PyInt 300); Lit " seconds"];
        Print [Lit "Running on :30 but not in high tide situation, skipping launch"]]).
Proof. reflexivity. Qed.

(** At 14:30 the same tide puts the run in high-tide mode, and the logger
    is started although the minute is 30. *)
Example main_at_1430 :
  main Sample.strptime (Sample.env_at 14 30 (Sample.answers Sample.tides))
    Sample.start
  = (Ok tt,
     mk_world 4
       [Print [Lit "File "; Lit "config.yaml"; Lit " not found."];
        Print [Lit "Failed to load config; using defaults"];
        HttpGet (datagetter_url [Lit "9410230"]
                   [Strftime (mk_datetime 739006 14 30 0 0) "%Y%m%d"]);
        Print [Lit "Closest past high tide: ";
               Time (Some (mk_datetime 739007 3 41 0 0))];
        Print [Lit "Closest future high tide: ";
               Time (Some (mk_datetime 739007 16 22 0 0))];
        Print [Lit "Sampling time set to: "; Val (PyInt 1500); Lit " seconds"];
        Spawn [livox_logger;
               [Lit "conf/config-"; Val (PyInt 1500); Lit ".yaml"]]]).
Proof. reflexivity. Qed.

(** C7, as amended.  The tide client sends one request.  It returns None,
    after logging the error, when the request raises a [RequestException],
    when the status is a 4xx or 5xx, and when the body does not parse.
    When the body parses to a JSON object it returns what the object holds
    under 'predictions', or an empty list when the key is missing, and logs
    nothing. *)
Theorem get_tide_predictions_outcomes E coops now_str w :
  let url := datagetter_url coops now_str in
  let sent := mk_world (ticks w) (trace w ++ [HttpGet url]) in
  let failed e :=
    (Ok PyNone,
     mk_world (ticks w)
       (trace w ++
        [HttpGet url;
         Print [Lit "Error fetching tide data: "; Exc e];
         Print [Lit "Falling back to default sampling time"]])) in
  (forall e,
      requests_get E url = Raise e -> isinstance e RequestException = true ->
      get_tide_predictions E coops now_str w = failed e) /\
  (forall resp,
      requests_get E url = Ok resp -> 400 <= status_code resp < 600 ->
      get_tide_predictions E coops now_str w = failed HTTPError) /\
  (forall resp e,
      requests_get E url = Ok resp -> ~ 400 <= status_code resp < 600 ->
      json resp = Raise e -> isinstance e ValueError = true ->
      get_tide_predictions E coops now_str w = failed e) /\
  (forall resp d,
      requests_get E url = Ok resp -> ~ 400 <= status_code resp < 600 ->
      json resp = Ok (PyDict d) ->
      get_tide_predictions E coops now_str w
      = (Ok match lookup "predictions" d with
            | Some predictions => predictions
            | None => PyList []
            end, sent)).
Proof.
  intros url sent failed.
  assert (Hstatus : forall resp,
             ~ 400 <= status_code resp < 600 ->
             (400 <=? status_code resp) && (status_code resp <? 600) = false).
  { intros resp Hs. apply andb_false_iff.
    destruct (Z.leb_spec 400 (status_code resp)); [right | now left].
    apply Z.ltb_ge. lia. }
  unfold failed, sent, url.
  repeat split.
  - intros e Hget He.
    unfold get_tide_predictions, fetch_failed, try_except, bind, print, emit,
      lift, ret. simpl.
    rewrite Hget. simpl. rewrite He. simpl.
    rewrite <- ?app_assoc; reflexivity.
  - intros resp Hget Hs.
    unfold get_tide_predictions, fetch_failed, try_except, bind, print, emit,
      lift, ret. simpl.
    rewrite Hget. simpl.
    replace ((400 <=? status_code resp) && (status_code resp <? 600))
      with true
      by (symmetry; apply andb_true_iff; split;
          [apply Z.leb_le | apply Z.ltb_lt]; lia).
    simpl. rewrite <- ?app_assoc; reflexivity.
  - intros resp e Hget Hs Hjson He.
    unfold get_tide_predictions, fetch_failed, try_except, bind, print, emit,
      lift, ret. simpl.
    rewrite Hget. simpl. rewrite (Hstatus resp Hs). simpl.
    rewrite Hjson. simpl. rewrite He, orb_true_r. simpl.
    rewrite <- ?app_assoc; reflexivity.
  - intros resp d Hget Hs Hjson.
    unfold get_tide_predictions, fetch_failed, try_except, bind, print, emit,
      lift, ret. simpl.
    rewrite Hget. simpl. rewrite (Hstatus resp Hs). simpl.
    rewrite Hjson. simpl. now destruct (lookup "predictions" d).
Qed.

Lemma get_tide_predictions_outcomes_witness :
  get_tide_predictions Sample.E [Lit NEAREST_COOPS] [Lit "20240430"]
    Sample.start
  = (Ok Sample.tides_fetched,
     mk_world 0
       [HttpGet (datagetter_url [Lit NEAREST_COOPS] [Lit "20240430"])]).
Proof.
  destruct (get_tide_predictions_outcomes Sample.E [Lit NEAREST_COOPS]
              [Lit "20240430"] Sample.start) as (_ & _ & _ & Hok).
  apply (Hok (mk_response 200 (Ok Sample.tides))
             [("predictions", Sample.tides_fetched)]).
  - reflexivity.
  - simpl. lia.
  - reflexivity.
Defined.

(** C7 as stated fails.  The tide service answers with status 200 and the
    JSON array [[]]: the body parses, [response.json()] is a list, which has
    no [get], and the client raises [AttributeError] to its caller instead
    of returning the predictions or None. *)
Lemma get_tide_predictions_json_array :
  get_tide_predictions (Sample.env_at 14 5 (Sample.answers (PyList [])))
    [Lit NEAREST_COOPS] [Lit "20240430"] Sample.start
  = (Raise AttributeError,
     mk_world 0
       [HttpGet (datagetter_url [Lit NEAREST_COOPS] [Lit "20240430"])]).
Proof. reflexivity. Qed.

(** C8.  On a list of prediction records that are all of type 'L' the
    analyzer returns (absent, absent), no closest high tide is identified,
    and lines 97 to 126 of [main] select the default interval. *)
Theorem only_low_tides strptime E default w preds recs :
  Forall2 (reads strptime) preds recs ->
  (forall r, In r recs -> snd r = PyStr "L") ->
  find_closest_high_tides strptime E (PyList preds) w
    = (Ok (None, None), tick w) /\
  closest_of (clock E (S (ticks w))) None None = Ok None /\
  main_select strptime E default (PyList preds) w
    = (Ok default,
       mk_world (S (S (ticks w)))
         (trace w ++
          [Print [Lit "Closest past high tide: "; Time None];
           Print [Lit "Closest future high tide: "; Time None]])).
Proof.
  intros Hrecs Hlow.
  pose proof (find_closest_high_tides_reads strptime E w _ _ Hrecs) as Hfind.
  rewrite (high_tides_none recs Hlow) in Hfind. simpl in Hfind.
  split; [exact Hfind |]. split; [reflexivity |].
  unfold main_select.
  change (is_none (PyList preds)) with false. cbv iota. unfold bind at 1.
  rewrite Hfind. unfold bind, print, emit, datetime_now, lift, tick. simpl.
  now rewrite <- app_assoc.
Qed.

Lemma only_low_tides_witness :
  main_select Sample.strptime Sample.E (PyInt DEFAULT_SAMP_TIME)
    (PyList Sample.low_predictions) Sample.start
  = (Ok (PyInt DEFAULT_SAMP_TIME),
     mk_world 2
       [Print [Lit "Closest past high tide: "; Time None];
        Print [Lit "Closest future high tide: "; Time None]]).
Proof.
  apply (only_low_tides Sample.strptime Sample.E (PyInt DEFAULT_SAMP_TIME)
           Sample.start Sample.low_predictions Sample.low_records).
  - repeat constructor; eexists; (split; [reflexivity |]); split; reflexivity.
  - intros r Hr. simpl in Hr.
    repeat (destruct Hr as [<- | Hr]; [reflexivity |]). contradiction.
Defined.

(** C9.  [round_to_nearest_hour] is idempotent: rounding the rounded
    datetime gives it back, because its minute, second and microsecond are
    zero; where the first rounding raises, so does the composition. *)
Theorem round_to_nearest_hour_idempotent dt :
  (r <- round_to_nearest_hour dt ;; round_to_nearest_hour r)%result
  = round_to_nearest_hour dt /\
  match round_to_nearest_hour dt with
  | Ok r => minute r = 0 /\ second r = 0 /\ microsecond r = 0
            /\ round_to_nearest_hour r = Ok r
  | Raise _ => True
  end.
Proof.
  assert (H : forall r, round_to_nearest_hour dt = Ok r ->
                minute r = 0 /\ second r = 0 /\ microsecond r = 0
                /\ round_to_nearest_hour r = Ok r).
  { intros r. unfold round_to_nearest_hour at 1.
    destruct (if 30 <=? minute dt then _ else _) as [d | e]; simpl;
      [| discriminate].
    rewrite replace_zero. intros [= <-]. simpl. repeat split. }
  destruct (round_to_nearest_hour dt) as [r | e] eqn:Hr; simpl.
  - destruct (H r eq_refl) as (? & ? & ? & ->). auto.
  - auto.
Qed.

(** C10.  When the request succeeds and the body is a JSON object without
    the key 'predictions', the tide client returns an empty list and logs
    nothing.  [main] then runs the analysis on the empty list, prints that
    there is no past and no future high tide, and selects the default
    interval; the fallback for missing tide data, which selects the default
    without any analysis, is the other branch. *)
Theorem missing_predictions_key strptime E coops now_str w status d default :
  requests_get E (datagetter_url coops now_str)
    = Ok (mk_response status (Ok (PyDict d))) ->
  (400 <=? status) && (status <? 600) = false ->
  lookup "predictions" d = None ->
  let sent :=
    mk_world (ticks w) (trace w ++ [HttpGet (datagetter_url coops now_str)]) in
  get_tide_predictions E coops now_str w = (Ok (PyList []), sent) /\
  main_select strptime E default (PyList []) sent
    = (Ok default,
       mk_world (S (S (ticks sent)))
         (trace sent ++
          [Print [Lit "Closest past high tide: "; Time None];
           Print [Lit "Closest future high tide: "; Time None]])) /\
  main_select strptime E default PyNone sent = (Ok default, sent).
Proof.
  intros Hget Hstatus Hkey sent. split; [| split].
  - unfold get_tide_predictions, try_except, bind, emit, lift. simpl.
    rewrite Hget. simpl. rewrite Hstatus. simpl. now rewrite Hkey.
  - unfold main_select, find_closest_high_tides, bind, print, emit,
      datetime_now, lift. simpl. now rewrite <- app_assoc.
  - reflexivity.
Qed.

Lemma missing_predictions_key_witness :
  get_tide_predictions (Sample.env_at 14 5 (Sample.answers Sample.no_data))
    [Lit NEAREST_COOPS] [Lit "20240430"] Sample.start
  = (Ok (PyList []),
     mk_world 0
       [HttpGet (datagetter_url [Lit NEAREST_COOPS] [Lit "20240430"])]).
Proof.
  apply (missing_predictions_key Sample.strptime
           (Sample.env_at 14 5 (Sample.answers Sample.no_data))
           [Lit NEAREST_COOPS] [Lit "20240430"] Sample.start 200
           [("error",
             PyDict [("message", PyStr "No Predictions data was found.")])]
           (PyInt DEFAULT_SAMP_TIME));
    reflexivity.
Defined.

(** The whole run on the error body: the analysis is printed, the interval
    is the default, and the logger is started. *)
Example main_no_data :
  main Sample.strptime (Sample.env_at 14 5 (Sample.answers Sample.no_data))
    Sample.start
  = (Ok tt,
     mk_world 4
       [Print [Lit "File "; Lit "config.yaml"; Lit " not found."];
        Print [Lit "Failed to load config; using defaults"];
        HttpGet (datagetter_url [Lit "9410230"]
                   [Strftime (mk_datetime 739006 14 5 0 0) "%Y%m%d"]);
        Print [Lit "Closest past high tide: "; Time None];
        Print [Lit "Closest future high tide: "; Time None];
        Print [Lit "Sampling time set to: "; Val (PyInt 300); Lit " seconds"];
        Spawn [livox_logger;
               [Lit "conf/config-"; Val (PyInt 300); Lit ".yaml"]]]).
Proof. reflexivity. Qed.

(** * Further properties of the code *)

(** ** The analyzer on arbitrary input *)

Section AnalyzerEdges.

Variable strptime : string -> string -> result datetime.

Lemma for_each_app {A S} (body : S -> A -> result S) l1 l2 s :
  for_each body (l1 ++ l2) s =
  (s' <- for_each body l1 s ;; for_each body l2 s')%result.
Proof.
  revert s. induction l1 as [| x l1 IH]; intros s; simpl.
  - reflexivity.
  - destruct (body s x); simpl; [apply IH | reflexivity].
Qed.

Lemma scan_prediction_unreadable now closest p e :
  unreadable strptime p e ->
  scan_prediction strptime now closest p = Raise e.
Proof.
  destruct closest as [past future]. unfold scan_prediction.
  intros [Ht | [(t & Ht & Hd) | (t & d & Ht & Hd & Hty)]].
  - now rewrite Ht.
  - rewrite Ht; simpl. now rewrite Hd.
  - rewrite Ht; simpl. rewrite Hd; simpl. now rewrite Hty.
Qed.

(** One iteration keeps the past candidate at or before [now] and the
    future candidate after it. *)
Lemma scan_prediction_sides now closest p closest' :
  (forall d, fst closest = Some d -> le d now = true) ->
  (forall d, snd closest = Some d -> lt now d = true) ->
  scan_prediction strptime now closest p = Ok closest' ->
  (forall d, fst closest' = Some d -> le d now = true) /\
  (forall d, snd closest' = Some d -> lt now d = true).
Proof.
  intros Hp Hf. destruct closest as [past future]. simpl in Hp, Hf.
  unfold scan_prediction.
  destruct (getitem p "t") as [t | e]; [| discriminate]; simpl.
  destruct (parse_datetime strptime t) as [d | e]; [| discriminate]; simpl.
  destruct (getitem p "type") as [type | e]; [| discriminate]; simpl.
  destruct (eq_str type "H"); [| now intros [= <-]].
  destruct (le d now) eqn:Hle.
  - destruct (match past with Some p0 => gt d p0 | None => true end);
      intros [= <-]; [| now split].
    split; simpl; [| assumption]. now intros ? [= <-].
  - destruct (match future with Some f => lt d f | None => true end);
      intros [= <-]; [| now split].
    split; simpl; [assumption |]. intros ? [= <-].
    rewrite le_lt in Hle. now destruct (lt now d).
Qed.

Lemma for_each_sides now items :
  forall closest closest',
    (forall d, fst closest = Some d -> le d now = true) ->
    (forall d, snd closest = Some d -> lt now d = true) ->
    for_each (scan_prediction strptime now) items closest = Ok closest' ->
    (forall d, fst closest' = Some d -> le d now = true) /\
    (forall d, snd closest' = Some d -> lt now d = true).
Proof.
  induction items as [| p items IH]; simpl.
  - intros closest closest' Hp Hf [= <-]. now split.
  - intros closest closest' Hp Hf.
    destruct (scan_prediction strptime now closest p) as [c | e] eqn:Hscan;
      [| discriminate]. simpl.
    destruct (scan_prediction_sides _ _ _ _ Hp Hf Hscan) as [Hp' Hf'].
    now apply IH.
Qed.

Lemma latest_at_or_before_unique now hs a b :
  latest_at_or_before now hs a -> latest_at_or_before now hs b -> a = b.
Proof.
  unfold latest_at_or_before. destruct a as [a |], b as [b |].
  - intros (Ha & Hla & Hma) (Hb & Hlb & Hmb). f_equal.
    apply le_antisym; auto.
  - intros (Ha & Hla & _) Hnone. rewrite (Hnone a Ha) in Hla. discriminate.
  - intros Hnone (Hb & Hlb & _). rewrite (Hnone b Hb) in Hlb. discriminate.
  - reflexivity.
Qed.

Lemma earliest_after_unique now hs a b :
  earliest_after now hs a -> earliest_after now hs b -> a = b.
Proof.
  unfold earliest_after. destruct a as [a |], b as [b |].
  - intros (Ha & Hla & Hma) (Hb & Hlb & Hmb). f_equal.
    apply le_antisym; auto.
  - intros (Ha & Hla & _) Hnone. rewrite (Hnone a Ha) in Hla. discriminate.
  - intros Hnone (Hb & Hlb & _). rewrite (Hnone b Hb) in Hlb. discriminate.
  - reflexivity.
Qed.

Lemma latest_at_or_before_same now hs hs' best :
  (forall h, In h hs <-> In h hs') ->
  latest_at_or_before now hs best -> latest_at_or_before now hs' best.
Proof.
  intros Hsame. unfold latest_at_or_before. destruct best as [p |].
  - intros (Hin & Hle & Hmax). split; [now apply Hsame |].
    split; [assumption |]. intros h Hh. apply Hmax. now apply Hsame.
  - intros Hnone h Hh. apply Hnone. now apply Hsame.
Qed.

Lemma earliest_after_same now hs hs' best :
  (forall h, In h hs <-> In h hs') ->
  earliest_after now hs best -> earliest_after now hs' best.
Proof.
  intros Hsame. unfold earliest_after. destruct best as [f |].
  - intros (Hin & Hlt & Hmin). split; [now apply Hsame |].
    split; [assumption |]. intros h Hh. apply Hmin. now apply Hsame.
  - intros Hnone h Hh. apply Hnone. now apply Hsame.
Qed.

Lemma fold_track_same now hs hs' :
  (forall h, In h hs <-> In h hs') ->
  fold_left (track now) hs (None, None)
  = fold_left (track now) hs' (None, None).
Proof.
  intros Hsame.
  destruct (fold_track now hs) as [Hp Hf].
  destruct (fold_track now hs') as [Hp' Hf'].
  apply (latest_at_or_before_same _ _ _ _ Hsame) in Hp.
  apply (earliest_after_same _ _ _ _ Hsame) in Hf.
  destruct (fold_left (track now) hs (None, None)) as [p f].
  destruct (fold_left (track now) hs' (None, None)) as [p' f'].
  simpl in *. f_equal.
  - eapply latest_at_or_before_unique; eassumption.
  - eapply earliest_after_unique; eassumption.
Qed.

End AnalyzerEdges.

(** X1.  Whatever value the analyzer is given, when it returns, the past
    candidate is at or before the instant it read from the clock and the
    future candidate is after it; so the past one is strictly earlier than
    the future one, and the clock was read exactly once. *)
Theorem find_closest_high_tides_brackets strptime E predictions w past future w' :
  find_closest_high_tides strptime E predictions w = (Ok (past, future), w') ->
  let now := clock E (ticks w) in
  w' = tick w /\
  (forall p, past = Some p -> le p now = true) /\
  (forall f, future = Some f -> lt now f = true) /\
  (forall p f, past = Some p -> future = Some f -> lt p f = true).
Proof.
  unfold find_closest_high_tides, bind, datetime_now, lift.
  destruct (iter predictions) as [items | e]; [| discriminate].
  destruct (for_each _ items (None, None)) as [c | e] eqn:Hloop;
    [| discriminate].
  intros [= -> <-]. set (now := clock E (ticks w)) in *.
  destruct (for_each_sides strptime now items (None, None) (past, future))
    as [Hp Hf]; try discriminate; try exact Hloop.
  simpl in Hp, Hf. repeat split; auto.
  intros p f Hpast Hfuture. apply (le_lt_trans p now f); auto.
Qed.

Lemma find_closest_high_tides_brackets_witness :
  lt (mk_datetime 739007 3 41 0 0) (mk_datetime 739007 16 22 0 0) = true.
Proof.
  destruct (find_closest_high_tides_brackets Sample.strptime Sample.E
              (PyList Sample.predictions) Sample.start
              (Some (mk_datetime 739007 3 41 0 0))
              (Some (mk_datetime 739007 16 22 0 0)) _ eq_refl)
    as (_ & _ & _ & Hlt).
  now apply Hlt.
Defined.

(** X2.  The analyzer parses the timestamp of every record before it looks
    at the type.  When the records before [p] are well formed and [p] cannot
    be read (no 't', a 't' that [strptime] rejects or that is no string, no
    'type'), the analyzer raises that error, whatever the type of [p] and
    whatever was found before it or follows it. *)
Theorem find_closest_high_tides_unreadable strptime E w good recs p e rest :
  Forall2 (reads strptime) good recs ->
  unreadable strptime p e ->
  find_closest_high_tides strptime E (PyList (good ++ p :: rest)) w
  = (Raise e, tick w).
Proof.
  intros Hgood Hbad.
  unfold find_closest_high_tides, bind, datetime_now, lift; simpl.
  rewrite for_each_app, (for_each_scan strptime _ _ _ Hgood). simpl.
  now rewrite (scan_prediction_unreadable strptime _ _ p e Hbad).
Qed.

Lemma find_closest_high_tides_unreadable_witness :
  find_closest_high_tides Sample.strptime Sample.E
    (PyList (Sample.predictions
             ++ Sample.prediction "05/02/2024 04:30" "0.212" "L" :: []))
    Sample.start
  = (Raise ValueError, mk_world 1 []).
Proof.
  apply (find_closest_high_tides_unreadable Sample.strptime Sample.E
           Sample.start Sample.predictions Sample.records).
  - exact sample_reads.
  - right; left. eexists. split; reflexivity.
Defined.

(** X3.  The result of the analyzer does not depend on the order of the
    prediction records: on any rearrangement of a list of well-formed
    records it returns the same pair. *)
Theorem find_closest_high_tides_permutation strptime E w preds preds' recs :
  Forall2 (reads strptime) preds recs ->
  Permutation preds preds' ->
  find_closest_high_tides strptime E (PyList preds') w
  = find_closest_high_tides strptime E (PyList preds) w.
Proof.
  intros Hrecs Hperm.
  destruct (Permutation_Forall2 Hperm Hrecs) as (recs' & Hperm' & Hrecs').
  rewrite (find_closest_high_tides_reads strptime E w _ _ Hrecs),
    (find_closest_high_tides_reads strptime E w _ _ Hrecs').
  f_equal. f_equal. apply fold_track_same.
  assert (Hp : Permutation (high_tides recs') (high_tides recs)).
  { unfold high_tides. apply Permutation_map.
    clear - Hperm'. symmetry in Hperm'.
    induction Hperm'; simpl;
      repeat match goal with
             | |- context [eq_str ?a ?b] => destruct (eq_str a b)
             end;
      eauto using Permutation. }
  intros h. split; apply Permutation_in; [exact Hp | now symmetry].
Qed.

Lemma find_closest_high_tides_permutation_witness :
  find_closest_high_tides Sample.strptime Sample.E
    (PyList (rev Sample.predictions)) Sample.start
  = find_closest_high_tides Sample.strptime Sample.E
      (PyList Sample.predictions) Sample.start.
Proof.
  apply (find_closest_high_tides_permutation Sample.strptime Sample.E
           Sample.start Sample.predictions (rev Sample.predictions)
           Sample.records).
  - exact sample_reads.
  - apply Permutation_rev.
Defined.

(** X4.  What the analyzer does with a 'predictions' value that is no list
    of records: a number or a boolean cannot be iterated and raises
    [TypeError]; a JSON object is iterated over its keys and a string over
    its characters, which cannot be subscripted with 't', so a non-empty one
    raises [TypeError] too; an empty object, string or list gives no
    candidate at all. *)
Theorem find_closest_high_tides_not_a_list strptime E w :
  (forall n, find_closest_high_tides strptime E (PyInt n) w
             = (Raise TypeError, tick w)) /\
  (forall b, find_closest_high_tides strptime E (PyBool b) w
             = (Raise TypeError, tick w)) /\
  (forall bits, find_closest_high_tides strptime E (PyFloat bits) w
                = (Raise TypeError, tick w)) /\
  (forall k v d, find_closest_high_tides strptime E (PyDict ((k, v) :: d)) w
                 = (Raise TypeError, tick w)) /\
  (forall c s, find_closest_high_tides strptime E (PyStr (String c s)) w
               = (Raise TypeError, tick w)) /\
  find_closest_high_tides strptime E (PyDict []) w = (Ok (None, None), tick w) /\
  find_closest_high_tides strptime E (PyStr "") w = (Ok (None, None), tick w) /\
  find_closest_high_tides strptime E (PyList []) w = (Ok (None, None), tick w).
Proof. repeat split. Qed.

(** ** Rounding on the time line *)

Section RoundLine.

Lemma round_line dt r :
  valid dt -> round_to_nearest_hour dt = Ok r ->
  to_us r = hours 1 * ((to_us dt + minutes 30) / hours 1).
Proof.
  intros Hv. rewrite (round_fields dt Hv).
  change (hours 1) with 3600000000. change (minutes 30) with 1800000000.
  unfold valid, MAXORDINAL in Hv.
  destruct (Z.ltb_spec (minute dt) 30);
    [| destruct (Z.ltb_spec (hour dt) 23);
       [| destruct (Z.ltb_spec (ordinal dt) MAXORDINAL); [| discriminate]]];
    intros [= <-]; unfold to_us;
    cbn [ordinal hour minute second microsecond];
    Z.div_mod_to_equations; lia.
Qed.

End RoundLine.

(** X5.  [round_to_nearest_hour] returns the nearest full hour: the result
    is on the hour and at most 30 minutes away from its argument, a
    datetime exactly half way between two hours going to the later one. *)
Theorem round_to_nearest_hour_nearest dt r :
  valid dt -> round_to_nearest_hour dt = Ok r ->
  valid r /\
  minute r = 0 /\ second r = 0 /\ microsecond r = 0 /\
  to_us r - minutes 30 <= to_us dt < to_us r + minutes 30.
Proof.
  intros Hv Hr.
  pose proof (round_line dt r Hv Hr) as Hline.
  pose proof (round_valid dt r Hv Hr) as Hrv.
  split; [exact Hrv |].
  revert Hr. unfold round_to_nearest_hour.
  destruct (if 30 <=? minute dt then _ else _) as [d | e]; simpl;
    [| discriminate].
  rewrite replace_zero. intros [= <-]. simpl.
  change (hours 1) with 3600000000 in Hline.
  change (minutes 30) with 1800000000 in *.
  repeat split; try reflexivity; rewrite Hline;
    Z.div_mod_to_equations; lia.
Qed.

Lemma round_to_nearest_hour_nearest_witness :
  to_us (mk_datetime 739007 16 0 0 0) - minutes 30
  <= to_us (mk_datetime 739007 16 22 0 0)
  < to_us (mk_datetime 739007 16 0 0 0) + minutes 30.
Proof.
  apply (round_to_nearest_hour_nearest (mk_datetime 739007 16 22 0 0)
           (mk_datetime 739007 16 0 0 0)).
  - unfold valid, MAXORDINAL; simpl; lia.
  - reflexivity.
Defined.

(** X6.  [round_to_nearest_hour] keeps the order of datetimes: of two
    datetimes the earlier never rounds to a later hour than the other. *)
Theorem round_to_nearest_hour_monotone a b ra rb :
  valid a -> valid b -> le a b = true ->
  round_to_nearest_hour a = Ok ra -> round_to_nearest_hour b = Ok rb ->
  le ra rb = true.
Proof.
  intros Ha Hb Hab Hra Hrb.
  pose proof (round_valid a ra Ha Hra) as Hrav.
  pose proof (round_valid b rb Hb Hrb) as Hrbv.
  rewrite (le_to_us ra rb Hrav Hrbv).
  rewrite (le_to_us a b Ha Hb) in Hab. apply Z.leb_le in Hab.
  apply Z.leb_le.
  rewrite (round_line a ra Ha Hra), (round_line b rb Hb Hrb).
  change (hours 1) with 3600000000. change (minutes 30) with 1800000000.
  Z.div_mod_to_equations. lia.
Qed.

Lemma round_to_nearest_hour_monotone_witness :
  le (mk_datetime 739007 16 0 0 0) (mk_datetime 739007 17 0 0 0) = true.
Proof.
  apply (round_to_nearest_hour_monotone (mk_datetime 739007 16 29 59 0)
           (mk_datetime 739007 16 30 0 0));
    try (unfold valid, MAXORDINAL; simpl; lia); reflexivity.
Defined.

(** ** The nearest high tide *)

Section Nearest.

Variable strptime : string -> string -> result datetime.

Lemma reads_valid preds recs :
  strptime_valid strptime ->
  Forall2 (reads strptime) preds recs ->
  forall h, In h (high_tides recs) -> valid h.
Proof.
  intros Hs Hrecs h Hh.
  destruct (high_tides_in _ _ Hh) as (r & Hr & <-).
  clear Hh. induction Hrecs as [| p r' preds recs Hp _ IH].
  - destruct Hr.
  - destruct Hr as [<- | Hr]; [| now apply IH].
    destruct Hp as (t & _ & Hd & _).
    eapply parse_datetime_valid; eassumption.
Qed.

End Nearest.

(** X7.  The analyzer and the choice of [main] together find a high tide
    nearest to now.  The analyzer reads the clock at [now1] and [main]
    reads it again at [now2]; when no high tide of the list lies between
    the two readings, the tide chosen at lines 107 to 117 is a high tide
    of the list and no high tide of the list is closer to [now2]; none is
    chosen only when the list has no high tide. *)
Theorem closest_high_tide_is_nearest strptime E w preds recs past future :
  strptime_valid strptime -> clock_valid E ->
  Forall2 (reads strptime) preds recs ->
  let now1 := clock E (ticks w) in
  let now2 := clock E (S (ticks w)) in
  let hs := high_tides recs in
  le now1 now2 = true ->
  (forall h, In h hs -> lt now1 h = true -> lt now2 h = true) ->
  find_closest_high_tides strptime E (PyList preds) w
    = (Ok (past, future), tick w) ->
  exists closest,
    closest_of now2 past future = Ok closest /\
    match closest with
    | Some tide =>
        In tide hs /\
        forall h, In h hs -> distance tide now2 <= distance h now2
    | None => hs = []
    end.
Proof.
  intros Hs Hc Hrecs now1 now2 hs Hclock Hgap Hfind.
  rewrite (find_closest_high_tides_reads strptime E w _ _ Hrecs) in Hfind.
  destruct (fold_track now1 hs) as [Hpast Hfuture].
  fold now1 hs in Hfind. injection Hfind as Hfold. rewrite Hfold in *.
  simpl in Hpast, Hfuture.
  pose proof (reads_valid strptime _ _ Hs Hrecs) as Hvalid. fold hs in Hvalid.
  assert (Hn1 : valid now1) by apply Hc.
  assert (Hn2 : valid now2) by apply Hc.
  assert (H12 : to_us now1 <= to_us now2).
  { apply Z.leb_le. now rewrite <- le_to_us. }
  (* every high tide is on the far side of its candidate *)
  assert (Hleft : forall p h, past = Some p -> In h hs -> le h now1 = true ->
                    to_us h <= to_us p <= to_us now2).
  { intros p h -> Hh Hle. destruct Hpast as (Hin & Hpn & Hmax).
    pose proof (Hmax h Hh Hle) as Hhp.
    rewrite (le_to_us h p) in Hhp by auto.
    rewrite (le_to_us p now1) in Hpn by auto.
    apply Z.leb_le in Hhp, Hpn. lia. }
  assert (Hright : forall f h, future = Some f -> In h hs -> lt now1 h = true ->
                     to_us now2 < to_us f <= to_us h).
  { intros f h -> Hh Hlt. destruct Hfuture as (Hin & Hnf & Hmin).
    pose proof (Hmin h Hh Hlt) as Hfh.
    pose proof (Hgap f Hin Hnf) as Hf2.
    rewrite (le_to_us f h) in Hfh by auto.
    rewrite (lt_to_us now2 f) in Hf2 by auto.
    apply Z.leb_le in Hfh. apply Z.ltb_lt in Hf2. lia. }
  assert (Hside : forall h, le h now1 = true \/ lt now1 h = true).
  { intros h. rewrite le_lt. destruct (lt now1 h); auto. }
  unfold closest_of, distance.
  destruct past as [p |], future as [f |].
  - destruct Hpast as (Hpin & Hpn & _), Hfuture as (Hfin & Hnf & _).
    destruct (sub_spec now2 p Hn2 (Hvalid p Hpin)) as (since & -> & Hsn & Hsus).
    destruct (sub_spec f now2 (Hvalid f Hfin) Hn2) as (until & -> & Hun & Huus).
    cbn [rbind]. rewrite (timedelta_le_us _ _ Hsn Hun), Hsus, Huus.
    pose proof (Hleft p p eq_refl Hpin Hpn) as Hpp.
    pose proof (Hright f f eq_refl Hfin Hnf) as Hff.
    destruct (Z.leb_spec (to_us now2 - to_us p) (to_us f - to_us now2));
      eexists; (split; [reflexivity |]); (split; [assumption |]);
      intros h Hh; destruct (Hside h) as [Hle | Hlt];
      [ pose proof (Hleft p h eq_refl Hh Hle)
      | pose proof (Hright f h eq_refl Hh Hlt)
      | pose proof (Hleft p h eq_refl Hh Hle)
      | pose proof (Hright f h eq_refl Hh Hlt) ]; lia.
  - destruct Hpast as (Hpin & Hpn & _).
    eexists. split; [reflexivity |]. split; [assumption |].
    intros h Hh. destruct (Hside h) as [Hle | Hlt].
    + pose proof (Hleft p h eq_refl Hh Hle). lia.
    + rewrite (Hfuture h Hh) in Hlt. discriminate.
  - destruct Hfuture as (Hfin & Hnf & _).
    eexists. split; [reflexivity |]. split; [assumption |].
    intros h Hh. destruct (Hside h) as [Hle | Hlt].
    + rewrite (Hpast h Hh) in Hle. discriminate.
    + pose proof (Hright f h eq_refl Hh Hlt). lia.
  - eexists. split; [reflexivity |].
    assert (Hnone : forall h, ~ In h hs).
    { intros h Hh. destruct (Hside h) as [Hle | Hlt].
      - rewrite (Hpast h Hh) in Hle. discriminate.
      - rewrite (Hfuture h Hh) in Hlt. discriminate. }
    clearbody hs. destruct hs as [| h hs']; [reflexivity |].
    exfalso. apply (Hnone h). now left.
Qed.

Lemma closest_high_tide_is_nearest_witness :
  exists closest,
    closest_of (Sample.clock_at 14 5 1)
      (Some (mk_datetime 739007 3 41 0 0)) (Some (mk_datetime 739007 16 22 0 0))
    = Ok closest /\
    match closest with
    | Some tide =>
        In tide (high_tides Sample.records) /\
        forall h, In h (high_tides Sample.records) ->
                  distance tide (Sample.clock_at 14 5 1)
                  <= distance h (Sample.clock_at 14 5 1)
    | None => high_tides Sample.records = []
    end.
Proof.
  apply (closest_high_tide_is_nearest Sample.strptime Sample.E Sample.start
           Sample.predictions Sample.records).
  - exact sample_strptime_valid.
  - apply sample_clock_valid; lia.
  - exact sample_reads.
  - reflexivity.
  - intros h Hh. simpl in Hh.
    repeat (destruct Hh as [<- | Hh]; [vm_compute; congruence |]).
    contradiction.
  - reflexivity.
Defined.

(** ** Runs without a configuration *)

Section Defaults.

Variable E : env.

Lemma one_day_before now0 :
  valid now0 ->
  sub_timedelta now0 (mk_timedelta 1 0 0) =
  if 1 <? ordinal now0 then Ok (day_before now0) else Raise OverflowError.
Proof.
  intros Hv.
  change (sub_timedelta now0 (mk_timedelta 1 0 0))
    with (add now0 (mk_timedelta (-1) 0 0)).
  assert (Hn : normalised (mk_timedelta (-1) 0 0))
    by (unfold normalised; simpl; lia).
  destruct (add_spec now0 _ Hv Hn) as [Hin Hout].
  unfold timedelta_us in Hin, Hout. simpl in Hin, Hout.
  destruct (Z.ltb_spec 1 (ordinal now0)) as [Ho | Ho].
  - destruct Hin as (r & -> & Hr & Hus).
    + unfold in_range, valid, to_us, MAXORDINAL in *. lia.
    + f_equal. destruct r as [o h m s u]. unfold day_before.
      unfold valid, to_us, MAXORDINAL in *. simpl in *.
      f_equal; lia.
  - apply Hout. unfold in_range, valid, to_us, MAXORDINAL in *. lia.
Qed.

(** What [load_config] has printed when it returns None. *)
Lemma load_config_none w :
  no_config E ->
  exists logged,
    (logged = [] \/ exists line, logged = [Print line]) /\
    load_config E "config.yaml" w
    = (Ok PyNone, mk_world (ticks w) (trace w ++ logged)).
Proof.
  unfold load_config, try_except, bind, lift, ret.
  intros [Hload | (e & Hload & He)]; rewrite Hload; simpl.
  - exists []. split; [now left |]. rewrite app_nil_r. now destruct w.
  - destruct (isinstance e FileNotFoundError) eqn:Hf; simpl.
    + eexists. split; [right; eexists; reflexivity | reflexivity].
    + destruct He as [He | He]; [discriminate |]. rewrite He. simpl.
      eexists. split; [right; eexists; reflexivity | reflexivity].
Qed.

(** Lines 83 to 95 without a configuration. *)
Lemma main_setup_without_config w :
  no_config E ->
  valid (clock E (ticks w)) ->
  exists logged,
    (logged = [] \/ exists line, logged = [Print line]) /\
    main_setup E w =
    if 1 <? ordinal (clock E (ticks w)) then
      match get_tide_predictions E [Lit NEAREST_COOPS]
              [Strftime (day_before (clock E (ticks w))) "%Y%m%d"]
              (mk_world (S (ticks w))
                 (trace w ++ logged ++
                  [Print [Lit "Failed to load config; using defaults"]]))
      with
      | (Ok predictions, w2) => (Ok (PyInt DEFAULT_SAMP_TIME, predictions), w2)
      | (Raise e, w2) => (Raise e, w2)
      end
    else (Raise OverflowError, mk_world (S (ticks w)) (trace w ++ logged)).
Proof.
  intros Hno Hv.
  destruct (load_config_none w Hno) as (logged & Hlogged & Hload).
  exists logged. split; [exact Hlogged |].
  unfold main_setup. unfold bind at 1. rewrite Hload.
  unfold bind at 1. unfold datetime_now. cbn [ticks trace].
  unfold bind at 1. unfold lift at 1.
  change (timedelta_days 1) with (Ok (mk_timedelta 1 0 0)). cbv iota beta.
  unfold bind at 1. unfold lift at 1.
  rewrite (one_day_before _ Hv).
  destruct (1 <? ordinal (clock E (ticks w))); [| reflexivity].
  cbv iota beta. unfold bind, print, emit, ret, read_local. simpl.
  rewrite <- app_assoc.
  destruct (get_tide_predictions E _ _ _) as [[p | e] w2]; reflexivity.
Qed.

End Defaults.

(** X8.  [load_config] recovers from a missing file and from a YAML error
    only.  Any other error of opening or reading config.yaml (a
    [PermissionError], say) leaves [load_config] and [main] as it is: the
    run ends with that exception before anything is printed, requested or
    started. *)
Theorem main_config_error strptime E w e :
  open_safe_load E "config.yaml" = Raise e ->
  isinstance e FileNotFoundError = false ->
  isinstance e YAMLError = false ->
  load_config E "config.yaml" w = (Raise e, w) /\
  main strptime E w = (Raise e, w).
Proof.
  intros Hload Hf Hy.
  assert (Hconfig : load_config E "config.yaml" w = (Raise e, w)).
  { unfold load_config, try_except, bind, lift. rewrite Hload. simpl.
    now rewrite Hf, Hy. }
  split; [exact Hconfig |].
  rewrite main_stages. unfold main_setup. unfold bind at 1.
  now rewrite Hconfig.
Qed.

Lemma main_config_error_witness :
  main Sample.strptime
    (mk_env (Sample.clock_at 14 5) (fun _ => Raise PermissionError)
       (Sample.answers Sample.tides) (fun _ => Ok 0))
    Sample.start
  = (Raise PermissionError, Sample.start).
Proof.
  apply (main_config_error Sample.strptime
           (mk_env (Sample.clock_at 14 5) (fun _ => Raise PermissionError)
              (Sample.answers Sample.tides) (fun _ => Ok 0))
           Sample.start PermissionError); reflexivity.
Defined.

(** X9.  Without a usable configuration (config.yaml is missing, is no
    YAML, or is empty) [main] goes on with the defaults: after at most one
    line of [load_config] and the line about the defaults, it asks for the
    tides of station 9410230 from the day before now on, at the same time
    of day, and the default interval is 300.  On 0001-01-01 there is no
    day before: the subtraction raises [OverflowError] before the request. *)
Theorem main_setup_defaults E w :
  no_config E ->
  let now0 := clock E (ticks w) in
  valid now0 ->
  exists logged,
    (logged = [] \/ exists line, logged = [Print line]) /\
    (1 < ordinal now0 ->
     main_setup E w =
     match get_tide_predictions E [Lit NEAREST_COOPS]
             [Strftime (day_before now0) "%Y%m%d"]
             (mk_world (S (ticks w))
                (trace w ++ logged ++
                 [Print [Lit "Failed to load config; using defaults"]]))
     with
     | (Ok predictions, w2) => (Ok (PyInt DEFAULT_SAMP_TIME, predictions), w2)
     | (Raise e, w2) => (Raise e, w2)
     end) /\
    (ordinal now0 = 1 ->
     main_setup E w
     = (Raise OverflowError, mk_world (S (ticks w)) (trace w ++ logged))).
Proof.
  intros Hno now0 Hv.
  destruct (main_setup_without_config E w Hno Hv) as (logged & Hlogged & Hrun).
  exists logged. split; [exact Hlogged |]. fold now0 in Hrun.
  split; intros Ho; rewrite Hrun.
  - destruct (Z.ltb_spec 1 (ordinal now0)); [reflexivity | lia].
  - destruct (Z.ltb_spec 1 (ordinal now0)); [lia | reflexivity].
Qed.

Lemma main_setup_defaults_witness :
  exists logged,
    main_setup Sample.E Sample.start =
    match get_tide_predictions Sample.E [Lit NEAREST_COOPS]
            [Strftime (mk_datetime 739006 14 5 0 0) "%Y%m%d"]
            (mk_world 1
               (logged ++ [Print [Lit "Failed to load config; using defaults"]]))
    with
    | (Ok predictions, w2) => (Ok (PyInt DEFAULT_SAMP_TIME, predictions), w2)
    | (Raise e, w2) => (Raise e, w2)
    end.
Proof.
  destruct (main_setup_defaults Sample.E Sample.start) as (logged & _ & Hrun & _).
  - right. exists FileNotFoundError. split; [reflexivity | now left].
  - unfold valid, MAXORDINAL; simpl; lia.
  - exists logged. apply Hrun. simpl. lia.
Defined.

Section LaunchTrace.

Variable E : env.

(** [main_launch] first prints the interval; whatever else it does comes
    after that line. *)
Lemma main_launch_trace samp_time w :
  exists r w3 evs,
    main_launch E samp_time w = (r, w3) /\
    trace w3 =
    ((trace w ++
      [Print [Lit "Sampling time set to: "; Val samp_time; Lit " seconds"]])
     ++ evs)%list.
Proof.
  unfold main_launch, bind, print, emit, datetime_now. cbn [ticks trace].
  destruct ((minute (clock E (ticks w)) =? 30) && ne_int samp_time (25 * 60)).
  - do 3 eexists. split; reflexivity.
  - unfold try_except, bind, emit, lift. cbn [ticks trace].
    destruct (subprocess_run E _) as [code | e].
    + destruct (code =? 0); simpl; do 3 eexists; (split; [reflexivity |]);
        cbn [trace]; rewrite <- ?app_assoc; reflexivity.
    + simpl.
      destruct (isinstance e CalledProcessError); simpl;
        [| destruct (isinstance e FileNotFoundError); simpl];
        do 3 eexists; (split; [reflexivity |]);
        cbn [trace]; rewrite <- ?app_assoc; reflexivity.
Qed.

End LaunchTrace.

(** X10.  When there is no usable configuration and the request for the
    tides fails with a [RequestException], [main] logs the error and goes on
    with the default interval of 300: at minute 30 it returns normally
    without starting anything, at any other minute it starts the logger
    once, with conf/config-300.yaml. *)
Theorem main_fetch_failure strptime E w e :
  no_config E ->
  let now0 := clock E (ticks w) in
  valid now0 -> 1 < ordinal now0 ->
  requests_get E (default_request (day_before now0)) = Raise e ->
  isinstance e RequestException = true ->
  let current_minute := minute (clock E (S (ticks w))) in
  exists r w3,
    main strptime E w = (r, w3) /\
    In (Print [Lit "Error fetching tide data: "; Exc e]) (trace w3) /\
    In (Print [Lit "Sampling time set to: "; Val (PyInt DEFAULT_SAMP_TIME);
               Lit " seconds"]) (trace w3) /\
    (current_minute = 30 ->
     r = Ok tt /\ invocations (trace w3) = invocations (trace w)) /\
    (current_minute <> 30 ->
     invocations (trace w3)
     = (invocations (trace w) ++ [logger_argv (PyInt DEFAULT_SAMP_TIME)])%list).
Proof.
  intros Hno now0 Hv Ho Hget He current_minute.
  destruct (main_setup_without_config E w Hno Hv) as (logged & Hlogged & Hsetup).
  fold now0 in Hsetup.
  destruct (Z.ltb_spec 1 (ordinal now0)); [| lia].
  assert (Hlog : invocations logged = []).
  { destruct Hlogged as [-> | (line & ->)]; reflexivity. }
  revert Hsetup.
  unfold get_tide_predictions, fetch_failed, try_except, bind, print, emit,
    lift, ret. cbn [ticks trace].
  unfold default_request in Hget. rewrite Hget. cbn [handler_for existsb].
  rewrite He. cbn [orb ticks trace]. intros Hsetup.
  rewrite main_stages, Hsetup.
  cbn [main_select is_none]. unfold ret.
  match goal with
  | |- context [main_launch E ?s ?w2] => set (w2' := w2)
  end.
  assert (Hinv2 : invocations (trace w2') = invocations (trace w)).
  { unfold w2'. cbn [trace]. rewrite !invocations_app, Hlog. simpl.
    now rewrite !app_nil_r. }
  assert (Herr : In (Print [Lit "Error fetching tide data: "; Exc e])
                    (trace w2')).
  { unfold w2'. cbn [trace]. rewrite !in_app_iff. simpl. tauto. }
  assert (Hticks : ticks w2' = S (ticks w)) by reflexivity.
  clearbody w2'.
  destruct (main_launch_trace E (PyInt DEFAULT_SAMP_TIME) w2')
    as (r & w3 & evs & Hrun & Htrace).
  exists r, w3. rewrite Hrun. split; [reflexivity |].
  split; [rewrite Htrace, !in_app_iff; tauto |].
  split; [rewrite Htrace, !in_app_iff; simpl; tauto |].
  unfold current_minute. rewrite <- Hticks. split.
  - intros Hm.
    rewrite (main_launch_skips E (PyInt DEFAULT_SAMP_TIME) w2' Hm eq_refl)
      in Hrun.
    injection Hrun as <- <-. split; [reflexivity |]. cbn [trace].
    rewrite invocations_app. simpl. rewrite app_nil_r. exact Hinv2.
  - intros Hm.
    assert (Hguard : (minute (clock E (ticks w2')) =? 30)
                     && ne_int (PyInt DEFAULT_SAMP_TIME) 1500 = false).
    { apply andb_false_iff. left. now apply Z.eqb_neq. }
    destruct (main_launch_spawns E _ w2' Hguard) as (r' & w3' & Hrun' & Hinv).
    rewrite Hrun in Hrun'. injection Hrun' as <- <-.
    now rewrite Hinv, Hinv2.
Qed.

Lemma main_fetch_failure_witness :
  exists r w3,
    main Sample.strptime
      (Sample.env_at 14 5 (fun _ => Raise ConnectionError)) Sample.start
    = (r, w3) /\
    invocations (trace w3) = [logger_argv (PyInt DEFAULT_SAMP_TIME)].
Proof.
  destruct (main_fetch_failure Sample.strptime
              (Sample.env_at 14 5 (fun _ => Raise ConnectionError))
              Sample.start ConnectionError)
    as (r & w3 & Hrun & _ & _ & _ & Hlaunch).
  - right. exists FileNotFoundError. split; [reflexivity | now left].
  - unfold valid, MAXORDINAL; simpl; lia.
  - simpl. lia.
  - reflexivity.
  - reflexivity.
  - exists r, w3. split; [exact Hrun |]. apply Hlaunch. discriminate.
Defined.

(** X11.  A body whose 'predictions' is null makes the tide client return
    None although nothing failed: the key is present, so the default of
    [dict.get] is not used, and no error is logged.  [main] then treats the
    run as one without tide data and selects the default interval without
    any analysis. *)
Theorem null_predictions strptime E coops now_str w status d default :
  requests_get E (datagetter_url coops now_str)
    = Ok (mk_response status (Ok (PyDict d))) ->
  ~ 400 <= status < 600 ->
  lookup "predictions" d = Some PyNone ->
  let sent :=
    mk_world (ticks w) (trace w ++ [HttpGet (datagetter_url coops now_str)]) in
  get_tide_predictions E coops now_str w = (Ok PyNone, sent) /\
  main_select strptime E default PyNone sent = (Ok default, sent).
Proof.
  intros Hget Hstatus Hkey sent. split; [| reflexivity].
  unfold get_tide_predictions, try_except, bind, emit, lift. simpl.
  rewrite Hget. simpl.
  replace ((400 <=? status) && (status <? 600)) with false.
  - simpl. now rewrite Hkey.
  - symmetry. apply andb_false_iff.
    destruct (Z.leb_spec 400 status); [right | now left].
    apply Z.ltb_ge. lia.
Qed.

Lemma null_predictions_witness :
  get_tide_predictions
    (Sample.env_at 14 5
       (Sample.answers (PyDict [("predictions", PyNone)])))
    [Lit NEAREST_COOPS] [Lit "20240430"] Sample.start
  = (Ok PyNone,
     mk_world 0
       [HttpGet (datagetter_url [Lit NEAREST_COOPS] [Lit "20240430"])]).
Proof.
  apply (null_predictions Sample.strptime
           (Sample.env_at 14 5
              (Sample.answers (PyDict [("predictions", PyNone)])))
           [Lit NEAREST_COOPS] [Lit "20240430"] Sample.start 200
           [("predictions", PyNone)] (PyInt DEFAULT_SAMP_TIME)).
  - reflexivity.
  - lia.
  - reflexivity.
Defined.

(** X12.  What the launch does with the outcome of the logger, when the
    half-hour guard lets it through.  It prints the interval and calls the
    logger once.  A return code other than 0 and a logger that is not found
    are each logged with one line, and the launch returns normally; any
    other error of starting the process is raised to the caller of
    [main]. *)
Theorem main_launch_outcomes E samp_time w :
  (minute (clock E (ticks w)) =? 30) && ne_int samp_time 1500 = false ->
  let argv := logger_argv samp_time in
  let started :=
    (trace w ++
     [Print [Lit "Sampling time set to: "; Val samp_time; Lit " seconds"];
      Spawn argv])%list in
  (subprocess_run E argv = Ok 0 ->
   main_launch E samp_time w = (Ok tt, mk_world (S (ticks w)) started)) /\
  (forall code,
      subprocess_run E argv = Ok code -> code <> 0 ->
      main_launch E samp_time w
      = (Ok tt,
         mk_world (S (ticks w))
           (started ++
            [Print [Lit "Error running livox_logger: ";
                    Exc CalledProcessError]]))) /\
  (forall e,
      subprocess_run E argv = Raise e ->
      isinstance e CalledProcessError = false ->
      isinstance e FileNotFoundError = true ->
      main_launch E samp_time w
      = (Ok tt,
         mk_world (S (ticks w))
           (started ++ [Print [Lit "livox_logger program not found"]]))) /\
  (forall e,
      subprocess_run E argv = Raise e ->
      isinstance e CalledProcessError = false ->
      isinstance e FileNotFoundError = false ->
      main_launch E samp_time w = (Raise e, mk_world (S (ticks w)) started)).
Proof.
  intros Hguard argv started.
  assert (Hrun : main_launch E samp_time w =
                 match subprocess_run E argv with
                 | Ok code =>
                     if code =? 0
                     then (Ok tt, mk_world (S (ticks w)) started)
                     else (Ok tt,
                           mk_world (S (ticks w))
                             (started ++
                              [Print [Lit "Error running livox_logger: ";
                                      Exc CalledProcessError]]))
                 | Raise e =>
                     if isinstance e CalledProcessError
                     then (Ok tt,
                           mk_world (S (ticks w))
                             (started ++
                              [Print [Lit "Error running livox_logger: ";
                                      Exc e]]))
                     else if isinstance e FileNotFoundError
                     then (Ok tt,
                           mk_world (S (ticks w))
                             (started ++
                              [Print [Lit "livox_logger program not found"]]))
                     else (Raise e, mk_world (S (ticks w)) started)
                 end).
  { unfold main_launch, bind, print, emit, datetime_now. cbn [ticks trace].
    change (25 * 60) with 1500. rewrite Hguard.
    unfold try_except, bind, emit, lift. cbn [ticks trace].
    unfold started, argv, logger_argv.
    destruct (subprocess_run E _) as [code | e].
    - destruct (code =? 0); simpl; rewrite <- ?app_assoc; reflexivity.
    - simpl.
      destruct (isinstance e CalledProcessError); simpl;
        [| destruct (isinstance e FileNotFoundError); simpl];
        rewrite <- ?app_assoc; reflexivity. }
  repeat split.
  - intros Hok. now rewrite Hrun, Hok.
  - intros code Hok Hcode. rewrite Hrun, Hok.
    destruct (Z.eqb_spec code 0); [contradiction | reflexivity].
  - intros e Hraise Hc Hf. now rewrite Hrun, Hraise, Hc, Hf.
  - intros e Hraise Hc Hf. now rewrite Hrun, Hraise, Hc, Hf.
Qed.

Lemma main_launch_outcomes_witness :
  main_launch
    (mk_env (Sample.clock_at 14 5) (fun _ => Raise FileNotFoundError)
       (Sample.answers Sample.tides) (fun _ => Ok 3))
    (PyInt 1500) Sample.start
  = (Ok tt,
     mk_world 1
       [Print [Lit "Sampling time set to: "; Val (PyInt 1500); Lit " seconds"];
        Spawn (logger_argv (PyInt 1500));
        Print [Lit "Error running livox_logger: "; Exc CalledProcessError]]).
Proof.
  destruct (main_launch_outcomes
              (mk_env (Sample.clock_at 14 5) (fun _ => Raise FileNotFoundError)
                 (Sample.answers Sample.tides) (fun _ => Ok 3))
              (PyInt 1500) Sample.start eq_refl) as (_ & Hcode & _).
  apply (Hcode 3); [reflexivity | discriminate].
Defined.

(** X13.  Whatever the environment, a run of [main] starts at most one
    process, and the only command lines it ever uses are the logger with
    conf/config-1500.yaml and the logger with conf/config-300.yaml: an
    interval set in config.yaml never reaches the logger. *)
Theorem main_invocations strptime E w r w' :
  main strptime E w = (r, w') ->
  exists started,
    invocations (trace w') = (invocations (trace w) ++ started)%list /\
    (started = [] \/
     started = [logger_argv (PyInt 1500)] \/
     started = [logger_argv (PyInt DEFAULT_SAMP_TIME)]).
Proof.
  rewrite main_stages.
  destruct (main_setup E w) as [[[default predictions] | e] w1] eqn:Hsetup.
  2:{ intros [= _ <-]. exists []. rewrite app_nil_r.
      split; [apply (quiet_main_setup _ _ _ _ Hsetup) | now left]. }
  destruct (main_setup_returns _ _ _ _ _ Hsetup) as [Hdefault _].
  pose proof (quiet_main_setup _ _ _ _ Hsetup) as Hq1.
  destruct (main_select strptime E default predictions w1)
    as [[s | e] w2] eqn:Hselect.
  2:{ intros [= _ <-]. exists []. rewrite app_nil_r.
      split; [| now left].
      now rewrite (quiet_main_select _ _ _ _ _ _ _ Hselect). }
  pose proof (quiet_main_select _ _ _ _ _ _ _ Hselect) as Hq2.
  pose proof (main_select_values _ _ _ _ _ _ _ Hselect) as Hvalues.
  rewrite Hdefault in Hvalues.
  destruct ((minute (clock E (ticks w2)) =? 30) && ne_int s 1500) eqn:Hguard.
  - apply andb_true_iff in Hguard. destruct Hguard as [Hm Hn].
    apply Z.eqb_eq in Hm.
    rewrite (main_launch_skips E s w2 Hm Hn). intros [= _ <-].
    exists []. rewrite app_nil_r. split; [| now left]. cbn [trace].
    rewrite invocations_app. simpl. rewrite app_nil_r. congruence.
  - destruct (main_launch_spawns E s w2 Hguard) as (r' & w3 & -> & Hinv).
    intros [= _ <-]. exists [logger_argv s].
    split; [rewrite Hinv; unfold logger_argv; congruence |].
    destruct Hvalues as [-> | ->]; auto.
Qed.

Lemma main_invocations_witness :
  exists started,
    invocations
      (trace (snd (main Sample.strptime Sample.E_configured Sample.start)))
    = (invocations (trace Sample.start) ++ started)%list /\
    (started = [] \/
     started = [logger_argv (PyInt 1500)] \/
     started = [logger_argv (PyInt DEFAULT_SAMP_TIME)]).
Proof.
  apply (main_invocations Sample.strptime Sample.E_configured Sample.start
           (fst (main Sample.strptime Sample.E_configured Sample.start))).
  reflexivity.
Defined.

(** ** The requests of a run *)

Section Offline.

Lemma requests_app evs evs' :
  requests (evs ++ evs') = (requests evs ++ requests evs')%list.
Proof.
  induction evs as [| [line | url | argv] evs IH]; simpl; congruence.
Qed.

Lemma offline_ret {A} (a : A) : offline (ret a).
Proof. intros w r w' [= _ <-]. reflexivity. Qed.

Lemma offline_raise {A} e : offline (@raise A e).
Proof. intros w r w' [= _ <-]. reflexivity. Qed.

Lemma offline_lift {A} (x : result A) : offline (lift x).
Proof. intros w r w' [= _ <-]. reflexivity. Qed.

Lemma offline_print line : offline (print line).
Proof.
  intros w r w' [= _ <-]. simpl. rewrite requests_app. simpl.
  apply app_nil_r.
Qed.

Lemma offline_spawn argv : offline (emit (Spawn argv)).
Proof.
  intros w r w' [= _ <-]. simpl. rewrite requests_app. simpl.
  apply app_nil_r.
Qed.

Lemma offline_now E : offline (datetime_now E).
Proof. intros w r w' [= _ <-]. reflexivity. Qed.

Lemma offline_bind {A B} (m : M A) (k : A -> M B) :
  offline m -> (forall a, offline (k a)) -> offline (bind m k).
Proof.
  intros Hm Hk w r w'. unfold bind.
  destruct (m w) as [[a | e] w1] eqn:Hmw.
  - intros Hkw. rewrite (Hk a _ _ _ Hkw). eapply Hm; eassumption.
  - intros [= _ <-]. eapply Hm; eassumption.
Qed.

Lemma offline_if {A} (b : bool) (m1 m2 : M A) :
  offline m1 -> offline m2 -> offline (if b then m1 else m2).
Proof. now destruct b. Qed.

Lemma offline_try_except {A} (body : M A) clauses :
  offline body ->
  Forall (fun clause => forall e, offline (snd clause e)) clauses ->
  offline (try_except body clauses).
Proof.
  intros Hb Hc w r w'. unfold try_except.
  destruct (body w) as [[a | e] w1] eqn:Hbw.
  - intros [= _ <-]. eapply Hb; eassumption.
  - assert (Hh : forall h, handler_for e clauses = Some h -> offline h).
    { clear - Hc. induction Hc as [| [classes h'] rest Hh' _ IH]; simpl.
      - discriminate.
      - intros h. destruct (existsb (isinstance e) classes).
        + intros [= <-]. apply Hh'.
        + apply IH. }
    destruct (handler_for e clauses) as [h |].
    + intros Hrun. rewrite (Hh h eq_refl _ _ _ Hrun). eapply Hb; eassumption.
    + intros [= _ <-]. eapply Hb; eassumption.
Qed.

End Offline.

Create HintDb offline.

#[local] Hint Resolve offline_ret offline_raise offline_lift offline_print
  offline_spawn offline_now : offline.

Ltac offline :=
  repeat first
    [ apply offline_bind; [| intros ?]
    | apply offline_try_except; [| repeat constructor; intros ?]
    | apply offline_if
    | match goal with |- offline (match ?x with _ => _ end) => destruct x end
    | solve [auto with offline] ].

Section Requests.

Variable strptime : string -> string -> result datetime.
Variable E : env.

Lemma offline_load_config path : offline (load_config E path).
Proof. unfold load_config. offline. Qed.

Lemma offline_find_closest_high_tides predictions :
  offline (find_closest_high_tides strptime E predictions).
Proof. unfold find_closest_high_tides. offline. Qed.

Lemma offline_main_select default predictions :
  offline (main_select strptime E default predictions).
Proof.
  unfold main_select. pose proof offline_find_closest_high_tides. offline.
Qed.

Lemma offline_main_launch samp_time : offline (main_launch E samp_time).
Proof.
  unfold main_launch. offline; cbn [snd]; auto with offline.
Qed.

Lemma load_config_ticks path w r w' :
  load_config E path w = (r, w') -> ticks w' = ticks w.
Proof.
  unfold load_config, try_except, bind, lift, ret.
  destruct (open_safe_load E path) as [config | e]; simpl.
  - now intros [= _ <-].
  - destruct (isinstance e FileNotFoundError); simpl; [now intros [= _ <-] |].
    destruct (isinstance e YAMLError); simpl; now intros [= _ <-].
Qed.

(** The tide client sends its one request, whatever comes of it. *)
Lemma get_tide_predictions_requests coops now_str w r w' :
  get_tide_predictions E coops now_str w = (r, w') ->
  requests (trace w') =
  (requests (trace w) ++ [datagetter_url coops now_str])%list.
Proof.
  assert (Hsent : forall (A : Type) (m : M A),
             offline m ->
             forall r0 w0,
               m (mk_world (ticks w)
                    (trace w ++ [HttpGet (datagetter_url coops now_str)]))
               = (r0, w0) ->
               requests (trace w0) =
               (requests (trace w) ++ [datagetter_url coops now_str])%list).
  { intros A m Hm r0 w0 Hrun. rewrite (Hm _ _ _ Hrun). simpl.
    now rewrite requests_app. }
  unfold get_tide_predictions, try_except. unfold bind at 1. unfold emit at 1.
  match goal with
  | |- context [bind ?m ?k ?w0] => set (rest := bind m k)
  end.
  assert (Hrest : offline rest) by (unfold rest; offline).
  destruct (rest _) as [[a | e] w1] eqn:Hrun.
  - intros [= _ <-]. apply (Hsent _ _ Hrest _ _ Hrun).
  - pose proof (Hsent _ _ Hrest _ _ Hrun) as Hw1.
    cbn [handler_for].
    destruct (existsb (isinstance e) [RequestException; ValueError]).
    + intros Hh. rewrite <- Hw1.
      assert (Hf : offline (fetch_failed e)) by (unfold fetch_failed; offline).
      apply (Hf _ _ _ Hh).
    + now intros [= _ <-].
Qed.

(** Lines 83 to 95 send at most the request for the default station. *)
Lemma main_setup_requests w r w1 :
  main_setup E w = (r, w1) ->
  requests (trace w1) = requests (trace w) \/
  exists day,
    sub_timedelta (clock E (ticks w)) (mk_timedelta 1 0 0) = Ok day /\
    requests (trace w1) = (requests (trace w) ++ [default_request day])%list.
Proof.
  unfold main_setup. unfold bind at 1.
  destruct (load_config E "config.yaml" w) as [[config | e] wa] eqn:Hload.
  2:{ intros [= _ <-]. left. apply (offline_load_config _ _ _ _ Hload). }
  pose proof (offline_load_config _ _ _ _ Hload) as Hreq.
  pose proof (load_config_ticks _ _ _ _ Hload) as Hticks.
  unfold bind at 1. unfold datetime_now. cbn [ticks trace].
  unfold bind at 1. unfold lift at 1.
  change (timedelta_days 1) with (Ok (mk_timedelta 1 0 0)). cbv iota beta.
  unfold bind at 1. unfold lift at 1. rewrite Hticks.
  destruct (sub_timedelta _ _) as [yesterday | e] eqn:Hy.
  2:{ intros [= _ <-]. left. exact Hreq. }
  destruct (is_none config); cbn [negb].
  - unfold bind, print, emit, ret, read_local. simpl.
    destruct (get_tide_predictions E _ _ _) as [[p | e] wb] eqn:Hg;
      apply get_tide_predictions_requests in Hg; cbn [trace] in Hg;
      intros [= _ <-]; right; exists yesterday; (split; [reflexivity |]);
      rewrite Hg, requests_app; simpl; rewrite app_nil_r, Hreq; reflexivity.
  - intros Hrun. left.
    assert (Hoff : forall wx rx wx',
               (* the configured branch and the read of [coops] *)
               bind (bind (print [Lit "Config loaded"])
                       (fun _ =>
                          bind (lift (getitem config "fqdn_ip"))
                            (fun _ =>
                               bind (lift (get config "sampling" (PyDict [])))
                                 (fun sampling =>
                                    bind (lift (get sampling "time"
                                                  (PyInt DEFAULT_SAMP_TIME)))
                                      (fun default_samp_time =>
                                         ret (default_samp_time,
                                              @None string))))))
                 (fun '(default_samp_time, coops) =>
                    bind (read_local coops)
                      (fun coops =>
                         bind (get_tide_predictions E [Lit coops]
                                 [Strftime yesterday "%Y%m%d"])
                           (fun predictions =>
                              ret (default_samp_time, predictions)))) wx
               = (rx, wx') ->
               requests (trace wx') = requests (trace wx)).
    { intros wx rx wx'. unfold bind, print, emit, lift, ret, read_local, raise.
      cbn [ticks trace].
      destruct (getitem config "fqdn_ip"); [| intros [= _ <-]];
        [destruct (get config "sampling" (PyDict [])) as [sampling |];
         [destruct (get sampling "time" (PyInt DEFAULT_SAMP_TIME)) |] |];
        try intros [= _ <-]; cbn [trace]; rewrite requests_app; simpl;
        apply app_nil_r. }
    apply Hoff in Hrun. cbn [trace] in Hrun. congruence.
Qed.

End Requests.

(** X14.  Whatever the environment, a run of [main] sends at most one
    request, and that request is the one for the tides of station 9410230;
    its begin date is the day before the first reading of the clock. *)
Theorem main_requests strptime E w r w' :
  main strptime E w = (r, w') ->
  requests (trace w') = requests (trace w) \/
  exists day,
    requests (trace w') = (requests (trace w) ++ [default_request day])%list /\
    (valid (clock E (ticks w)) -> day = day_before (clock E (ticks w))).
Proof.
  rewrite main_stages.
  destruct (main_setup E w) as [[[default predictions] | e] w1] eqn:Hsetup.
  - intros Hrest.
    assert (Hoff : requests (trace w') = requests (trace w1)).
    { destruct (main_select strptime E default predictions w1)
        as [[s | e] w2] eqn:Hselect.
      - rewrite (offline_main_launch E s _ _ _ Hrest).
        apply (offline_main_select strptime E _ _ _ _ _ Hselect).
      - injection Hrest as _ <-.
        apply (offline_main_select strptime E _ _ _ _ _ Hselect). }
    rewrite Hoff.
    destruct (main_setup_requests E _ _ _ Hsetup) as [Hnone | (day & Hday & Hone)];
      [now left | right].
    exists day. split; [exact Hone |]. intros Hv.
    rewrite (one_day_before _ Hv) in Hday.
    destruct (1 <? ordinal (clock E (ticks w))); congruence.
  - intros [= _ <-].
    destruct (main_setup_requests E _ _ _ Hsetup) as [Hnone | (day & Hday & Hone)];
      [now left | right].
    exists day. split; [exact Hone |]. intros Hv.
    rewrite (one_day_before _ Hv) in Hday.
    destruct (1 <? ordinal (clock E (ticks w))); congruence.
Qed.

Lemma main_requests_witness :
  requests (trace (snd (main Sample.strptime Sample.E Sample.start)))
  = (requests (trace Sample.start)
     ++ [default_request (mk_datetime 739006 14 5 0 0)])%list.
Proof.
  destruct (main_requests Sample.strptime Sample.E Sample.start
              (fst (main Sample.strptime Sample.E Sample.start))
              (snd (main Sample.strptime Sample.E Sample.start)) eq_refl)
    as [Hnone | (day & Hone & Hday)].
  - discriminate Hnone.
  - rewrite Hone, Hday; [reflexivity |].
    unfold valid, MAXORDINAL; simpl; lia.
Defined.

(** X15.  No [RequestException] and no [ValueError] ever leaves the tide
    client: an exception that [get_tide_predictions] raises is of neither
    class, and it is raised after the request and before anything is
    logged. *)
Theorem get_tide_predictions_uncaught E coops now_str w e w' :
  get_tide_predictions E coops now_str w = (Raise e, w') ->
  isinstance e RequestException = false /\
  isinstance e ValueError = false /\
  w' = mk_world (ticks w) (trace w ++ [HttpGet (datagetter_url coops now_str)]).
Proof.
  unfold get_tide_predictions, fetch_failed, try_except, bind, print, emit,
    lift, ret, raise. cbn [ticks trace].
  assert (Hcaught : forall x : exn,
             existsb (isinstance x) [RequestException; ValueError] = false ->
             isinstance x RequestException = false /\
             isinstance x ValueError = false).
  { intros x. cbn [existsb]. rewrite orb_false_r. apply orb_false_iff. }
  destruct (requests_get E _) as [resp | x].
  - destruct ((400 <=? status_code resp) && (status_code resp <? 600)).
    + cbn. discriminate.
    + destruct (json resp) as [body | x].
      * destruct (get body "predictions" (PyList [])) as [p | x];
          [discriminate |].
        cbn [handler_for].
        destruct (existsb (isinstance x) _) eqn:Hx; [discriminate |].
        intros [= <- <-]. destruct (Hcaught _ Hx). auto.
      * cbn [handler_for].
        destruct (existsb (isinstance x) _) eqn:Hx; [discriminate |].
        intros [= <- <-]. destruct (Hcaught _ Hx). auto.
  - cbn [handler_for].
    destruct (existsb (isinstance x) _) eqn:Hx; [discriminate |].
    intros [= <- <-]. destruct (Hcaught _ Hx). auto.
Qed.

Lemma get_tide_predictions_uncaught_witness :
  isinstance AttributeError RequestException = false /\
  isinstance AttributeError ValueError = false /\
  mk_world 0 [HttpGet (datagetter_url [Lit NEAREST_COOPS] [Lit "20240430"])]
  = mk_world (ticks Sample.start)
      (trace Sample.start
       ++ [HttpGet (datagetter_url [Lit NEAREST_COOPS] [Lit "20240430"])]).
Proof.
  apply (get_tide_predictions_uncaught
           (Sample.env_at 14 5 (Sample.answers (PyList [])))
           [Lit NEAREST_COOPS] [Lit "20240430"] Sample.start).
  reflexivity.
Defined.

Section Completion.

Variable E : env.

(** A body that is a JSON object, with a status that is no error. *)
Lemma get_tide_predictions_object coops now_str w status d :
  requests_get E (datagetter_url coops now_str)
    = Ok (mk_response status (Ok (PyDict d))) ->
  ~ 400 <= status < 600 ->
  get_tide_predictions E coops now_str w
  = (Ok match lookup "predictions" d with
        | Some predictions => predictions
        | None => PyList []
        end,
     mk_world (ticks w) (trace w ++ [HttpGet (datagetter_url coops now_str)])).
Proof.
  intros Hget Hstatus.
  unfold get_tide_predictions, try_except, bind, emit, lift. simpl.
  rewrite Hget. simpl.
  replace ((400 <=? status) && (status <? 600)) with false.
  - simpl. now destruct (lookup "predictions" d).
  - symmetry. apply andb_false_iff.
    destruct (Z.leb_spec 400 status); [right | now left].
    apply Z.ltb_ge. lia.
Qed.

(** The launch returns normally when starting the logger fails in no other
    way than the two that are handled. *)
Lemma main_launch_returns samp_time w :
  (forall argv e,
      subprocess_run E argv = Raise e ->
      isinstance e CalledProcessError = true \/
      isinstance e FileNotFoundError = true) ->
  exists w3, main_launch E samp_time w = (Ok tt, w3).
Proof.
  intros Hrun.
  unfold main_launch, bind, print, emit, datetime_now. cbn [ticks trace].
  destruct ((minute (clock E (ticks w)) =? 30) && ne_int samp_time (25 * 60));
    [eauto |].
  unfold try_except, bind, emit, lift. cbn [ticks trace].
  destruct (subprocess_run E _) as [code | e] eqn:Hsub.
  - destruct (code =? 0); simpl; eauto.
  - simpl.
    destruct (isinstance e CalledProcessError) eqn:Hc; simpl; [eauto |].
    destruct (isinstance e FileNotFoundError) eqn:Hf; simpl; [eauto |].
    destruct (Hrun _ _ Hsub); congruence.
Qed.

End Completion.

(** X16.  A run of [main] ends normally when there is no usable
    configuration, the tide service answers with an object whose
    'predictions' is a list of well-formed records, no date involved is at
    an end of the calendar, and starting the logger fails at most with a
    [CalledProcessError] or a [FileNotFoundError]. *)
Theorem main_completes strptime E w status d preds recs :
  strptime_valid strptime -> clock_valid E ->
  no_config E ->
  1 < ordinal (clock E (ticks w)) ->
  requests_get E (default_request (day_before (clock E (ticks w))))
    = Ok (mk_response status (Ok (PyDict d))) ->
  ~ 400 <= status < 600 ->
  lookup "predictions" d = Some (PyList preds) ->
  Forall2 (reads strptime) preds recs ->
  (forall r, In r recs -> 1 < ordinal (fst r) < MAXORDINAL) ->
  (forall argv e,
      subprocess_run E argv = Raise e ->
      isinstance e CalledProcessError = true \/
      isinstance e FileNotFoundError = true) ->
  exists w', main strptime E w = (Ok tt, w').
Proof.
  intros Hs Hc Hno Ho Hget Hstatus Hkey Hrecs Hmid Hrun.
  destruct (main_setup_without_config E w Hno (Hc _)) as (logged & _ & Hsetup).
  destruct (Z.ltb_spec 1 (ordinal (clock E (ticks w)))); [| lia].
  unfold default_request in Hget.
  rewrite (get_tide_predictions_object E _ _ _ _ _ Hget Hstatus), Hkey
    in Hsetup.
  rewrite main_stages, Hsetup.
  match goal with
  | |- context [main_select _ _ _ _ ?w1] =>
      destruct (main_select_total strptime E (PyInt DEFAULT_SAMP_TIME)
                  preds recs w1 Hs Hc Hrecs Hmid) as (s & w2 & ->)
  end.
  apply (main_launch_returns E s w2 Hrun).
Qed.

Lemma main_completes_witness :
  exists w', main Sample.strptime Sample.E Sample.start = (Ok tt, w').
Proof.
  apply (main_completes Sample.strptime Sample.E Sample.start 200
           [("predictions", Sample.tides_fetched)]
           Sample.predictions Sample.records).
  - apply sample_strptime_valid.
  - apply sample_clock_valid; lia.
  - right. exists FileNotFoundError. split; [reflexivity | now left].
  - simpl. lia.
  - reflexivity.
  - lia.
  - reflexivity.
  - apply sample_reads.
  - intros r Hr. simpl in Hr.
    repeat (destruct Hr as [<- | Hr]; [unfold MAXORDINAL; simpl; lia |]).
    contradiction.
  - discriminate.
Defined.

(** X17.  The window of the fast interval, measured from the high tide
    itself: from 90 minutes before the tide to 150 minutes after it the
    interval is 1500 whatever the rounding does, and at 150 minutes or more
    before the tide, or more than 210 minutes after it, it is the default.
    In between the minute of the tide decides. *)
Theorem samp_time_for_near_tide default now tide :
  valid now -> valid tide -> 1 < ordinal tide < MAXORDINAL ->
  (to_us tide - minutes 90 <= to_us now <= to_us tide + minutes 150 ->
   samp_time_for default now (Some tide) = Ok (PyInt 1500)) /\
  (to_us now <= to_us tide - minutes 150 \/
   to_us tide + minutes 210 < to_us now ->
   samp_time_for default now (Some tide) = Ok default).
Proof.
  intros Hnow Ht Ho.
  destruct (samp_time_for_total default now tide Hnow Ht Ho) as [s Hsamp].
  destruct (round_to_nearest_hour tide) as [rounded | e] eqn:Hround.
  2:{ unfold samp_time_for in Hsamp. rewrite Hround in Hsamp. discriminate. }
  pose proof (round_valid _ _ Ht Hround) as Hrv.
  pose proof (round_line _ _ Ht Hround) as Hline.
  destruct (samp_time_for_rounded default now tide rounded Hnow Hrv Hround)
    as [Hvalue _].
  rewrite Hsamp, (Hvalue s Hsamp).
  unfold in_windowb.
  change (hours 1) with 3600000000 in Hline.
  change (hours 2) with 7200000000. change (hours 3) with 10800000000.
  change (minutes 30) with 1800000000 in Hline.
  change (minutes 90) with 5400000000.
  change (minutes 150) with 9000000000.
  change (minutes 210) with 12600000000.
  assert (Hnear : to_us rounded - 1800000000 <= to_us tide
                  < to_us rounded + 1800000000).
  { rewrite Hline. Z.div_mod_to_equations. lia. }
  clear Hline.
  split; intros Hwhere.
  - destruct (Z.leb_spec (to_us rounded - 7200000000) (to_us now)); [| lia].
    destruct (Z.leb_spec (to_us now) (to_us rounded + 10800000000)); [| lia].
    reflexivity.
  - destruct (Z.leb_spec (to_us rounded - 7200000000) (to_us now));
      [| reflexivity].
    destruct (Z.leb_spec (to_us now) (to_us rounded + 10800000000));
      [lia | reflexivity].
Qed.

Lemma samp_time_for_near_tide_witness :
  samp_time_for (PyInt DEFAULT_SAMP_TIME) (mk_datetime 739007 15 0 0 0)
    (Some (mk_datetime 739007 16 22 0 0))
  = Ok (PyInt 1500).
Proof.
  apply (samp_time_for_near_tide (PyInt DEFAULT_SAMP_TIME)
           (mk_datetime 739007 15 0 0 0) (mk_datetime 739007 16 22 0 0));
    try (unfold valid, MAXORDINAL; simpl; lia).
  vm_compute. split; discriminate.
Defined.
